(** * Judge + chatbot front end: traffic lights, streamed evaluations, chat state

    A shallow embedding of the TypeScript front end
    ([types/index.ts], [components/TrafficLight.tsx], [components/Message.tsx],
    [components/JudgePanel.tsx], [services/websocket.ts], [components/ChatUI.tsx])
    and of the evaluation rule of the back end as the specification words it,
    followed by the properties stated about them.

    Conventions.
    - A JavaScript [number] that carries a score, a weight or a threshold is the
      rational it denotes ([Q]); [a >= b] on such numbers is [Qle_bool b a].
      An arithmetic result is rounded as binary64 rounds it ([Binary64]
      below): [threshold * 0.7] is the rational the double product denotes.
    - An optional value, or one that may be [undefined] or [null], is an [option].
    - React state is a record; a handler is a function from the state before
      the call to the state after all its [setX] calls have been applied
      (a functional updater [prev => ...] reads the field it updates).
    - Calls a handler makes on its props callbacks, on [alert] and on the shared
      [wsClient] are returned as a list of effects, in call order.
      [console.log] lines of the component are not modelled. *)

From Stdlib Require Import QArith Lia.
From Stdlib Require SpecFloat.
From stdpp Require Import base option list strings pretty gmap.

(** ** [types/index.ts] *)

Inductive MessageRole := USER | ASSISTANT | SYSTEM.

#[global] Instance MessageRole_eq_dec : EqDecision MessageRole.
Proof. solve_decision. Defined.

Inductive ConversationMode := SIMPLE | FEEDBACK | INPUT_CRITIQUE.

Module CriterionScore.
Record t := mk {
  name : string;
  score : Q;
  weight : Q;
  threshold : Q;
  passed : bool;
  feedback : option string
}.
End CriterionScore.

Module JudgeEvaluation.
Record t := mk {
  overall_score : Q;
  criteria_scores : list CriterionScore.t;
  feedback : string;
  should_regenerate : bool;
  suggestions : list string;
  traffic_light : string
}.

(** [{ ...ev, criteria_scores: cs }] *)
Definition with_criteria_scores (cs : list CriterionScore.t) (ev : t) : t :=
  mk (overall_score ev) cs (feedback ev) (should_regenerate ev)
     (suggestions ev) (traffic_light ev).

(** The literal the component writes wherever it starts an accumulation:
    [{ criteria_scores: cs, overall_score: 0, feedback: '',
       should_regenerate: false, suggestions: [], traffic_light: '⚪' }]. *)
Definition placeholder (cs : list CriterionScore.t) : t :=
  mk 0%Q cs "" false [] "⚪".
End JudgeEvaluation.

(** The keys the components read and write in [Message.metadata]
    ([Record<string, any>] in the source); an absent key and a key holding
    [undefined] are both [None]. Every message of the chat is built by
    [ChatUI] with a [metadata] object. *)
Module Metadata.
Record t := mk {
  iteration : option nat;
  evaluation : option JudgeEvaluation.t;
  streaming_evaluation : option JudgeEvaluation.t;
  inputEvaluation : option JudgeEvaluation.t
}.

(** [{}] *)
Definition empty : t := mk None None None None.

(** [{ ...md, streaming_evaluation: ev }] *)
Definition with_streaming_evaluation (ev : JudgeEvaluation.t) (md : t) : t :=
  mk (iteration md) (evaluation md) (Some ev) (inputEvaluation md).

(** [{ ...md, evaluation: ev, streaming_evaluation: undefined }] *)
Definition with_final_evaluation (ev : JudgeEvaluation.t) (md : t) : t :=
  mk (iteration md) (Some ev) None (inputEvaluation md).

(** [{ ...md, inputEvaluation: ev }] *)
Definition with_inputEvaluation (ev : JudgeEvaluation.t) (md : t) : t :=
  mk (iteration md) (evaluation md) (streaming_evaluation md) (Some ev).
End Metadata.

(** The interface [Message], imported by the components as [MessageType]. *)
Module MessageType.
Record t := mk {
  id : string;
  role : MessageRole;
  content : string;
  timestamp : string;
  metadata : Metadata.t
}.

(** [{ ...msg, metadata: md }] *)
Definition with_metadata (md : Metadata.t) (msg : t) : t :=
  mk (id msg) (role msg) (content msg) (timestamp msg) md.
End MessageType.

(** ** [components/TrafficLight.tsx] *)

Module TrafficLight.
Definition GREEN : string := "🟢".
Definition ORANGE : string := "🟠".
Definition RED : string := "🔴".

Inductive Size := small | medium | large.

Record Props := mk {
  score : Q;
  greenThreshold : option Q;
  orangeThreshold : option Q;
  size : option Size
}.

(** The destructuring defaults [greenThreshold = 70], [orangeThreshold = 40],
    [size = 'medium']. *)
Definition greenThreshold_or_default (p : Props) : Q :=
  default (70 # 1)%Q (greenThreshold p).

Definition orangeThreshold_or_default (p : Props) : Q :=
  default (40 # 1)%Q (orangeThreshold p).

Definition size_or_default (p : Props) : Size :=
  default medium (size p).

Definition getIndicator (score greenThreshold orangeThreshold : Q) : string :=
  if Qle_bool greenThreshold score then GREEN
  else if Qle_bool orangeThreshold score then ORANGE
  else RED.

Definition getLabel (score greenThreshold orangeThreshold : Q) : string :=
  if Qle_bool greenThreshold score then "Good"
  else if Qle_bool orangeThreshold score then "Needs Improvement"
  else "Poor".

Definition sizeMap (s : Size) : string :=
  match s with
  | small => "1.5rem"
  | medium => "2rem"
  | large => "3rem"
  end.

Record View := mkView {
  indicator : string;
  indicatorFontSize : string;
  label : string
}.

(** The element the component returns: the indicator, at the font size of
    [sizeMap], and the label. *)
Definition render (p : Props) : View :=
  mkView
    (getIndicator (score p) (greenThreshold_or_default p) (orangeThreshold_or_default p))
    (sizeMap (size_or_default p))
    (getLabel (score p) (greenThreshold_or_default p) (orangeThreshold_or_default p)).
End TrafficLight.

(** ** [components/Message.tsx] *)

Module Message.
Definition getTrafficLightColor (score : Q) : string :=
  if Qle_bool (70 # 1) score then "🟢"
  else if Qle_bool (40 # 1) score then "🟠"
  else "🔴".

(** [const trafficLights = isUser
       ? (metadata?.inputEvaluation?.criteria_scores || null)
       : (metadata?.streaming_evaluation?.criteria_scores
          || metadata?.evaluation?.criteria_scores || null)].
    An array, even an empty one, is truthy. *)
Definition trafficLights (message : MessageType.t) : option (list CriterionScore.t) :=
  let md := MessageType.metadata message in
  if decide (MessageType.role message = USER)
  then JudgeEvaluation.criteria_scores <$> Metadata.inputEvaluation md
  else match Metadata.streaming_evaluation md with
       | Some ev => Some (JudgeEvaluation.criteria_scores ev)
       | None => JudgeEvaluation.criteria_scores <$> Metadata.evaluation md
       end.

(** The row of inline lights drawn under the bubble, one per criterion
    ([trafficLights && trafficLights.length > 0 && trafficLights.map(...)]);
    the [evaluation] prop of the component is not read. *)
Definition renderTrafficLights (message : MessageType.t)
    (evaluation : option JudgeEvaluation.t) : list (string * string) :=
  match trafficLights message with
  | Some cs =>
      (fun criterion =>
         (CriterionScore.name criterion,
          getTrafficLightColor (CriterionScore.score criterion))) <$> cs
  | None => []
  end.
End Message.

(** ** Arithmetic on JavaScript numbers

    A JavaScript number is an IEEE 754 binary64 value; a finite one is the
    rational it denotes. [SpecFloat] gives the operations on the
    sign-mantissa-exponent form, rounding to nearest, ties to even. *)

Module Binary64.
Definition prec : Z := 53.
Definition emax : Z := 1024.

(** The double nearest to a rational: how a numeric literal such as [0.7],
    or a number in a JSON text, is read. A rational that is the value of a
    double is read as that double. *)
Definition of_Q (q : Q) : SpecFloat.spec_float :=
  match Qnum q with
  | Z0 => SpecFloat.S754_zero false
  | Zpos n =>
      SpecFloat.SFdiv prec emax (SpecFloat.S754_finite false n 0)
        (SpecFloat.S754_finite false (Qden q) 0)
  | Zneg n =>
      SpecFloat.SFdiv prec emax (SpecFloat.S754_finite true n 0)
        (SpecFloat.S754_finite false (Qden q) 0)
  end.

(** The rational a finite double denotes, [(-1)^s * m * 2^e]. The products
    below are finite; an infinity or a NaN has no rational and is not
    reached. *)
Definition to_Q (x : SpecFloat.spec_float) : Q :=
  match x with
  | SpecFloat.S754_finite s m e =>
      let n := if s then Zneg m else Zpos m in
      match e with
      | Z0 => n # 1
      | Zpos p => (n * 2 ^ Zpos p) # 1
      | Zneg p => n # (2 ^ p)
      end
  | _ => 0
  end.

(** [x * y] on numbers: the binary64 product of the two doubles. *)
Definition times (x y : Q) : Q :=
  to_Q (SpecFloat.SFmul prec emax (of_Q x) (of_Q y)).

Arguments times : simpl never.
End Binary64.

(** ** [components/JudgePanel.tsx] *)

Module JudgePanel.
Inductive View :=
| Evaluating
| NoEvaluationYet
| Panel (overall : TrafficLight.Props)
        (breakdown : list (string * TrafficLight.Props)).

(** The [<TrafficLight score={criterion.score}
          greenThreshold={criterion.threshold}
          orangeThreshold={criterion.threshold * 0.7} size="small" />]
    element of one criterion card. *)
Definition criterionLight (criterion : CriterionScore.t) : TrafficLight.Props :=
  TrafficLight.mk (CriterionScore.score criterion)
    (Some (CriterionScore.threshold criterion))
    (Some (Binary64.times (CriterionScore.threshold criterion) (7 # 10)))
    (Some TrafficLight.small).

(** The [<TrafficLight score={evaluation.overall_score} size="large" />]
    element of the overall score. *)
Definition overallLight (evaluation : JudgeEvaluation.t) : TrafficLight.Props :=
  TrafficLight.mk (JudgeEvaluation.overall_score evaluation) None None
    (Some TrafficLight.large).

Definition render (evaluation : option JudgeEvaluation.t) (isLoading : bool) : View :=
  if isLoading then Evaluating
  else match evaluation with
       | None => NoEvaluationYet
       | Some ev =>
           Panel (overallLight ev)
             ((fun criterion => (CriterionScore.name criterion, criterionLight criterion))
                <$> JudgeEvaluation.criteria_scores ev)
       end.

(** The indicators a rendered panel shows: the overall one, then one per
    criterion in list order. *)
Definition indicators (v : View) : option (string * list string) :=
  match v with
  | Panel overall breakdown =>
      Some (TrafficLight.indicator (TrafficLight.render overall),
            (fun card => TrafficLight.indicator (TrafficLight.render (snd card)))
              <$> breakdown)
  | _ => None
  end.
End JudgePanel.

(** ** [services/websocket.ts] *)

Module WebSocketClient.
Inductive ReadyState := CONNECTING | OPEN | CLOSING | CLOSED.

#[global] Instance ReadyState_eq_dec : EqDecision ReadyState.
Proof. solve_decision. Defined.

(** The browser socket held in [this.ws]: its [readyState] and the frames
    handed to its [send], oldest first. *)
Record WebSocket := mkWebSocket {
  readyState : ReadyState;
  sent : list string
}.

(** An [EventHandler] is a function object; [indexOf] compares handlers by
    reference, which is the number here. *)
Definition EventHandler := nat.

Record t := mk {
  ws : option WebSocket;
  url : string;
  handlers : gmap string (list EventHandler);
  reconnectAttempts : nat;
  maxReconnectAttempts : nat;
  reconnectDelay : nat
}.

(** [new WebSocketClient(url)] *)
Definition new (url : string) : t := mk None url ∅ 0 5 1000.

Inductive Completion := Returned | Threw.

(** What a call leaves behind: the client, the lines written with
    [console.error], and whether the call returned or threw. *)
Record Outcome := mkOutcome {
  client : t;
  console_error : list string;
  completion : Completion
}.

Section Send.
(** The type of the [data] argument ([any]), and [JSON.stringify] on the
    object [{ event, data, timestamp }]; [None] when it throws (a cyclic
    value, a BigInt). *)
Context {Data : Type}.
Variable JSON_stringify : string -> Data -> string -> option string.

Definition send (this : t) (eventType : string) (data : Data) (toISOString : string)
    : Outcome :=
  match ws this with
  | Some socket =>
      if decide (readyState socket = OPEN) then
        match JSON_stringify eventType data toISOString with
        | Some frame =>
            mkOutcome
              (mk (Some (mkWebSocket (readyState socket) (sent socket ++ [frame])))
                  (url this) (handlers this) (reconnectAttempts this)
                  (maxReconnectAttempts this) (reconnectDelay this))
              [] Returned
        | None => mkOutcome this [] Threw
        end
      else mkOutcome this ["WebSocket is not connected"] Returned
  | None => mkOutcome this ["WebSocket is not connected"] Returned
  end.
End Send.

Section SendAll.
Context {Data : Type}.
Variable JSON_stringify : string -> Data -> string -> option string.

(** Calls of [send] one after the other, each with its event type, data and
    clock reading; a call that throws leaves the client to the next call. *)
Fixpoint sendAll (this : t) (calls : list (string * Data * string)) : t :=
  match calls with
  | [] => this
  | (eventType, data, toISOString) :: rest =>
      sendAll (client (send JSON_stringify this eventType data toISOString)) rest
  end.
End SendAll.

(** The frames handed so far to the socket the client holds. *)
Definition frames_sent (this : t) : list string :=
  match ws this with
  | Some socket => sent socket
  | None => []
  end.

Definition isConnected (this : t) : bool :=
  match ws this with
  | Some socket => bool_decide (readyState socket = OPEN)
  | None => false
  end.

Definition on (this : t) (eventType : string) (handler : EventHandler) : t :=
  mk (ws this) (url this)
     (<[eventType := default [] (handlers this !! eventType) ++ [handler]]> (handlers this))
     (reconnectAttempts this) (maxReconnectAttempts this) (reconnectDelay this).

(** [splice(indexOf(handler), 1)]: the first occurrence goes. *)
Fixpoint remove_first (handler : EventHandler) (l : list EventHandler) : list EventHandler :=
  match l with
  | [] => []
  | h :: l' => if decide (h = handler) then l' else h :: remove_first handler l'
  end.

Definition off (this : t) (eventType : string) (handler : EventHandler) : t :=
  match handlers this !! eventType with
  | Some l =>
      mk (ws this) (url this) (<[eventType := remove_first handler l]> (handlers this))
         (reconnectAttempts this) (maxReconnectAttempts this) (reconnectDelay this)
  | None => this
  end.

(** [handleEvent(event)]: the handlers registered for [event.event] are
    called with [event.data], in the order of the array; no entry, no call.
    The result lists the handlers called. *)
Definition handleEvent (this : t) (event : string) : list EventHandler :=
  match handlers this !! event with
  | Some l => l
  | None => []
  end.

(** A call of [attemptReconnect] leaves the client, the delay of the timer
    it set with [setTimeout] if it set one, and a console line. *)
Record Reconnect := mkReconnect {
  reconnecting : t;
  setTimeout : option nat;
  console : string
}.

Definition attemptReconnect (this : t) : Reconnect :=
  if bool_decide (reconnectAttempts this < maxReconnectAttempts this) then
    let attempts := S (reconnectAttempts this) in
    mkReconnect
      (mk (ws this) (url this) (handlers this) attempts
          (maxReconnectAttempts this) (reconnectDelay this))
      (Some (reconnectDelay this * attempts))
      ("Attempting to reconnect (" +:+ pretty attempts +:+ "/"
       +:+ pretty (maxReconnectAttempts this) +:+ ")...")
  else mkReconnect this None "Max reconnection attempts reached".

(** [n] closes in a row, none followed by an [onopen]: one
    [attemptReconnect] per close; the delays of the timers set, in order. *)
Fixpoint attemptReconnects (n : nat) (this : t) : t * list nat :=
  match n with
  | 0 => (this, [])
  | S n' =>
      let r := attemptReconnect this in
      let '(this', delays) := attemptReconnects n' (reconnecting r) in
      (this', from_option (fun d => [d]) [] (setTimeout r) ++ delays)
  end.

(** [disconnect()]: [if (this.ws) { this.ws.close(); this.ws = null; }];
    the socket that was closed is no longer referenced by the client. *)
Definition disconnect (this : t) : t :=
  match ws this with
  | Some _ =>
      mk None (url this) (handlers this) (reconnectAttempts this)
         (maxReconnectAttempts this) (reconnectDelay this)
  | None => this
  end.
End WebSocketClient.

(** ** [components/ChatUI.tsx] *)

Module ChatUI.

(** The component state, one field per [useState]. *)
Module State.
Record t := mk {
  messages : list MessageType.t;
  inputValue : string;
  isLoading : bool;
  isJudging : bool;
  currentEvaluation : option JudgeEvaluation.t;
  streamingCriteria : option JudgeEvaluation.t;
  streamingMessage : string;
  lastUserMessage : string;
  conversationId : option string;
  mode : ConversationMode;
  inputEvaluation : option JudgeEvaluation.t;
  isStopped : bool
}.

(** The first render: the initial values of the [useState] calls. *)
Definition initial : t :=
  mk [] "" false false None None "" "" None INPUT_CRITIQUE None false.

(** [setMessages(prev => f(prev))] *)
Definition setMessages (f : (list MessageType.t) -> (list MessageType.t)) (st : t) : t :=
  mk (f (messages st)) (inputValue st) (isLoading st) (isJudging st)
     (currentEvaluation st) (streamingCriteria st) (streamingMessage st)
     (lastUserMessage st) (conversationId st) (mode st) (inputEvaluation st)
     (isStopped st).

(** [setInputValue(prev => f(prev))] *)
Definition setInputValue (f : string -> string) (st : t) : t :=
  mk (messages st) (f (inputValue st)) (isLoading st) (isJudging st)
     (currentEvaluation st) (streamingCriteria st) (streamingMessage st)
     (lastUserMessage st) (conversationId st) (mode st) (inputEvaluation st)
     (isStopped st).

(** [setIsLoading(prev => f(prev))] *)
Definition setIsLoading (f : bool -> bool) (st : t) : t :=
  mk (messages st) (inputValue st) (f (isLoading st)) (isJudging st)
     (currentEvaluation st) (streamingCriteria st) (streamingMessage st)
     (lastUserMessage st) (conversationId st) (mode st) (inputEvaluation st)
     (isStopped st).

(** [setIsJudging(prev => f(prev))] *)
Definition setIsJudging (f : bool -> bool) (st : t) : t :=
  mk (messages st) (inputValue st) (isLoading st) (f (isJudging st))
     (currentEvaluation st) (streamingCriteria st) (streamingMessage st)
     (lastUserMessage st) (conversationId st) (mode st) (inputEvaluation st)
     (isStopped st).

(** [setCurrentEvaluation(prev => f(prev))] *)
Definition setCurrentEvaluation (f : (option JudgeEvaluation.t) -> (option JudgeEvaluation.t))
    (st : t) : t :=
  mk (messages st) (inputValue st) (isLoading st) (isJudging st)
     (f (currentEvaluation st)) (streamingCriteria st) (streamingMessage st)
     (lastUserMessage st) (conversationId st) (mode st) (inputEvaluation st)
     (isStopped st).

(** [setStreamingCriteria(prev => f(prev))] *)
Definition setStreamingCriteria (f : (option JudgeEvaluation.t) -> (option JudgeEvaluation.t))
    (st : t) : t :=
  mk (messages st) (inputValue st) (isLoading st) (isJudging st) (currentEvaluation st)
     (f (streamingCriteria st)) (streamingMessage st) (lastUserMessage st)
     (conversationId st) (mode st) (inputEvaluation st) (isStopped st).

(** [setStreamingMessage(prev => f(prev))] *)
Definition setStreamingMessage (f : string -> string) (st : t) : t :=
  mk (messages st) (inputValue st) (isLoading st) (isJudging st) (currentEvaluation st)
     (streamingCriteria st) (f (streamingMessage st)) (lastUserMessage st)
     (conversationId st) (mode st) (inputEvaluation st) (isStopped st).

(** [setLastUserMessage(prev => f(prev))] *)
Definition setLastUserMessage (f : string -> string) (st : t) : t :=
  mk (messages st) (inputValue st) (isLoading st) (isJudging st) (currentEvaluation st)
     (streamingCriteria st) (streamingMessage st) (f (lastUserMessage st))
     (conversationId st) (mode st) (inputEvaluation st) (isStopped st).

(** [setConversationId(prev => f(prev))] *)
Definition setConversationId (f : (option string) -> (option string)) (st : t) : t :=
  mk (messages st) (inputValue st) (isLoading st) (isJudging st) (currentEvaluation st)
     (streamingCriteria st) (streamingMessage st) (lastUserMessage st)
     (f (conversationId st)) (mode st) (inputEvaluation st) (isStopped st).

(** [setInputEvaluation(prev => f(prev))] *)
Definition setInputEvaluation (f : (option JudgeEvaluation.t) -> (option JudgeEvaluation.t))
    (st : t) : t :=
  mk (messages st) (inputValue st) (isLoading st) (isJudging st) (currentEvaluation st)
     (streamingCriteria st) (streamingMessage st) (lastUserMessage st)
     (conversationId st) (mode st) (f (inputEvaluation st)) (isStopped st).

(** [setIsStopped(prev => f(prev))] *)
Definition setIsStopped (f : bool -> bool) (st : t) : t :=
  mk (messages st) (inputValue st) (isLoading st) (isJudging st) (currentEvaluation st)
     (streamingCriteria st) (streamingMessage st) (lastUserMessage st)
     (conversationId st) (mode st) (inputEvaluation st) (f (isStopped st)).
End State.

(** The [data] argument of [wsClient.send('user_message', data)]. *)
Record UserMessage := mkUserMessage {
  message : string;
  conversation_id : option string;
  mode : ConversationMode;
  message_id : option string;
  skip_user_evaluation : option bool
}.

(** What a handler does besides setting state. *)
Inductive Effect :=
| onEvaluationUpdate (evaluation : option JudgeEvaluation.t)
| onIterationUpdate (iteration : nat)
| wsClient_send (eventType : string) (data : UserMessage)
| alert (text : string).

(** The two clock reads of a handler: [Date.now()] and
    [new Date().toISOString()]. *)
Record Clock := mkClock {
  Date_now : N;
  toISOString : string
}.

(** [`msg_${Date.now()}`] *)
Definition msg_id (clock : Clock) : string := "msg_" +:+ pretty (Date_now clock).

(** The events of [WebSocketEventType] with the fields of [data] that the
    handlers read. *)
Inductive WebSocketEvent :=
| CHATBOT_GENERATING
| JUDGE_INPUT_CRITIQUE
| CHATBOT_CHUNK (chunk : string)
| CHATBOT_RESPONSE (response : string) (iteration : option nat)
                   (conversation_id : option string)
| JUDGE_EVALUATING
| JUDGE_CRITERION_RESULT (criterion : CriterionScore.t)
| JUDGE_RESULT (evaluation : JudgeEvaluation.t)
| CHATBOT_REFINING
| FINAL_RESPONSE
| ERROR (error : string)
| USER_INPUT_EVALUATION (criterion : CriterionScore.t) (message_id : option string).

(** Truthiness of an optional string. *)
Definition truthy_string (s : option string) : bool :=
  match s with
  | Some s' => negb (bool_decide (s' = ""))
  | None => false
  end.

(** The updater shared by [handleJudgeCriterionResult] and
    [handleJudgeResult]:
    [const lastAssistantIndex = prevMessages.length - 1;
     if (lastAssistantIndex >= 0
         && prevMessages[lastAssistantIndex].role === MessageRole.ASSISTANT) {
       const updatedMessages = [...prevMessages];
       updatedMessages[lastAssistantIndex] =
         { ...updatedMessages[lastAssistantIndex], metadata: f(metadata) };
       return updatedMessages;
     }
     return prevMessages;] *)
Definition updateLastAssistant (f : Metadata.t -> Metadata.t)
    (prevMessages : list MessageType.t) : list MessageType.t :=
  let lastAssistantIndex := (Z.of_nat (length prevMessages) - 1)%Z in
  match prevMessages !! Z.to_nat lastAssistantIndex with
  | Some lastMessage =>
      if bool_decide (0 <= lastAssistantIndex)%Z
         && bool_decide (MessageType.role lastMessage = ASSISTANT)
      then <[Z.to_nat lastAssistantIndex :=
               MessageType.with_metadata (f (MessageType.metadata lastMessage)) lastMessage]>
             prevMessages
      else prevMessages
  | None => prevMessages
  end.

(** [prev ? { ...prev, criteria_scores: [...prev.criteria_scores, criterion] }
          : { criteria_scores: [criterion], overall_score: 0, ... }] *)
Definition appendCriterion (criterion : CriterionScore.t)
    (prev : option JudgeEvaluation.t) : JudgeEvaluation.t :=
  match prev with
  | Some ev =>
      JudgeEvaluation.with_criteria_scores
        (JudgeEvaluation.criteria_scores ev ++ [criterion]) ev
  | None => JudgeEvaluation.placeholder [criterion]
  end.

(** *** The handlers of the mount effect

    They are created inside [useEffect(() => {...}, [onEvaluationUpdate,
    onIterationUpdate])]: the [isStopped] they test is the constant of the
    render whose effect created them, not a field of the current state. *)
Section MountEffect.
Variable isStopped : bool.

Definition handleGenerating (st : State.t) : State.t * list Effect :=
  (State.setCurrentEvaluation (fun _ => None) (State.setIsLoading (fun _ => true) st),
   [onEvaluationUpdate None]).

(** Only logs. *)
Definition handleInputCritique (st : State.t) : State.t * list Effect :=
  (st, []).

Definition handleChatbotChunk (chunk : string) (st : State.t) : State.t * list Effect :=
  if isStopped then (st, [])
  else (State.setStreamingMessage (fun prev => prev +:+ chunk) st, []).

Definition handleChatbotResponse (clock : Clock) (response : string)
    (iteration : option nat) (conversation_id : option string) (st : State.t)
    : State.t * list Effect :=
  let newMessage :=
    MessageType.mk (msg_id clock) ASSISTANT response (toISOString clock)
      (Metadata.mk iteration None None None) in
  let st1 := State.setMessages (fun prev => prev ++ [newMessage]) st in
  let st2 := State.setStreamingMessage (fun _ => "") st1 in
  let st3 := State.setIsLoading (fun _ => false) st2 in
  let st4 := if truthy_string conversation_id
             then State.setConversationId (fun _ => conversation_id) st3
             else st3 in
  (st4,
   match iteration with
   | Some n => if bool_decide (n = 0) then [] else [onIterationUpdate n]
   | None => []
   end).

Definition handleJudgeEvaluating (st : State.t) : State.t * list Effect :=
  if isStopped then (st, [])
  else (State.setStreamingCriteria (fun _ => Some (JudgeEvaluation.placeholder []))
          (State.setIsJudging (fun _ => true) st),
        []).

Definition handleJudgeCriterionResult (criterion : CriterionScore.t) (st : State.t)
    : State.t * list Effect :=
  if isStopped then (st, [])
  else
    let updated := appendCriterion criterion (State.streamingCriteria st) in
    (State.setStreamingCriteria (fun _ => Some updated)
       (State.setMessages
          (updateLastAssistant (Metadata.with_streaming_evaluation updated)) st),
     []).

Definition handleJudgeResult (evaluation : JudgeEvaluation.t) (st : State.t)
    : State.t * list Effect :=
  if isStopped then (st, [])
  else
    let st1 := State.setIsJudging (fun _ => false) st in
    let st2 := State.setCurrentEvaluation (fun _ => Some evaluation) st1 in
    let st3 := State.setStreamingCriteria (fun _ => None) st2 in
    (State.setMessages (updateLastAssistant (Metadata.with_final_evaluation evaluation)) st3,
     [onEvaluationUpdate (Some evaluation)]).

Definition handleFinalResponse (st : State.t) : State.t * list Effect :=
  (State.setIsJudging (fun _ => false) (State.setIsLoading (fun _ => false) st), []).

Definition handleError (error : string) (st : State.t) : State.t * list Effect :=
  (State.setIsLoading (fun _ => false) st, [alert ("Error: " +:+ error)]).

Definition handleUserInputEvaluation (criterion : CriterionScore.t)
    (messageId : option string) (st : State.t) : State.t * list Effect :=
  let st1 :=
    State.setMessages
      (fun prevMessages =>
         (fun msg =>
            if bool_decide (Some (MessageType.id msg) = messageId) then
              let currentEval :=
                default (JudgeEvaluation.placeholder [])
                        (Metadata.inputEvaluation (MessageType.metadata msg)) in
              let updated :=
                JudgeEvaluation.with_criteria_scores
                  (JudgeEvaluation.criteria_scores currentEval ++ [criterion]) currentEval in
              MessageType.with_metadata
                (Metadata.with_inputEvaluation updated (MessageType.metadata msg)) msg
            else msg) <$> prevMessages) st in
  (State.setInputEvaluation (fun prev => Some (appendCriterion criterion prev)) st1, []).

(** [wsClient.handleEvent]: the handler registered for the event type, if any
    ([CHATBOT_REFINING] has none). *)
Definition handleEvent (clock : Clock) (event : WebSocketEvent) (st : State.t)
    : State.t * list Effect :=
  match event with
  | CHATBOT_GENERATING => handleGenerating st
  | JUDGE_INPUT_CRITIQUE => handleInputCritique st
  | CHATBOT_CHUNK chunk => handleChatbotChunk chunk st
  | CHATBOT_RESPONSE response iteration conversation_id =>
      handleChatbotResponse clock response iteration conversation_id st
  | JUDGE_EVALUATING => handleJudgeEvaluating st
  | JUDGE_CRITERION_RESULT criterion => handleJudgeCriterionResult criterion st
  | JUDGE_RESULT evaluation => handleJudgeResult evaluation st
  | CHATBOT_REFINING => (st, [])
  | FINAL_RESPONSE => handleFinalResponse st
  | ERROR error => handleError error st
  | USER_INPUT_EVALUATION criterion message_id =>
      handleUserInputEvaluation criterion message_id st
  end.
End MountEffect.

(** *** The handlers of the render

    [handleSend], [handleStop] and [handleRetry] are created by every render
    and bound to the controls of that render: they read the current state. *)

(** [prev[prev.length - 1]] is [last prev]; [prev.slice(0, -1)] is
    [take (length prev - 1) prev]. *)
Definition dropLastAssistant (prev : list MessageType.t) : list MessageType.t :=
  match last prev with
  | Some lastMsg =>
      if bool_decide (MessageType.role lastMsg = ASSISTANT)
      then take (length prev - 1) prev
      else prev
  | None => prev
  end.

(** [for (let i = prev.length - 1; i >= 0; i--)
       if (prev[i].role === MessageRole.USER && prev[i].content === lastUserMessage)
         { lastUserMessageId = prev[i].id; break; }],
    with [n] the number of indices still to visit. *)
Fixpoint findLastUserMessageId (n : nat) (prev : list MessageType.t)
    (lastUserMessage : string) : option string :=
  match n with
  | 0 => None
  | S i =>
      match prev !! i with
      | Some m =>
          if bool_decide (MessageType.role m = USER)
             && bool_decide (MessageType.content m = lastUserMessage)
          then Some (MessageType.id m)
          else findLastUserMessageId i prev lastUserMessage
      | None => findLastUserMessageId i prev lastUserMessage
      end
  end.

Section Render.
(** [String.prototype.trim]. *)
Variable trim : string -> string.

Definition handleSend (clock : Clock) (st : State.t) : State.t * list Effect :=
  if bool_decide (trim (State.inputValue st) = "")
     || State.isLoading st || State.isJudging st
  then (st, [])
  else
    let userMessageContent := State.inputValue st in
    let st1 := State.setInputValue (fun _ => "") st in
    let st2 := State.setIsLoading (fun _ => true) st1 in
    let st3 := State.setIsStopped (fun _ => false) st2 in
    let st4 := State.setInputEvaluation
                 (fun _ => Some (JudgeEvaluation.placeholder [])) st3 in
    let tempUserId := msg_id clock in
    let userMessage :=
      MessageType.mk tempUserId USER userMessageContent (toISOString clock)
        Metadata.empty in
    let st5 := State.setMessages (fun prev => prev ++ [userMessage]) st4 in
    let st6 := State.setLastUserMessage (fun _ => userMessageContent) st5 in
    (st6,
     [wsClient_send "user_message"
        (mkUserMessage userMessageContent (State.conversationId st) (State.mode st)
           (Some tempUserId) None)]).
End Render.

Definition handleStop (st : State.t) : State.t * list Effect :=
  let st1 := State.setIsStopped (fun _ => true) st in
  let st2 := State.setIsLoading (fun _ => false) st1 in
  let st3 := State.setIsJudging (fun _ => false) st2 in
  (State.setStreamingMessage (fun _ => "") st3, []).

(** [lastUserMessageId] is assigned inside the [setMessages] updater and read
    by the [wsClient.send] call that follows [setMessages]: the payload
    carries the id when React has run the updater by then ([updaterRan]), and
    [undefined] otherwise. *)
Definition handleRetry (updaterRan : bool) (st : State.t) : State.t * list Effect :=
  if bool_decide (State.lastUserMessage st = "")
     || State.isLoading st || State.isJudging st
  then (st, [])
  else
    let st1 := State.setIsStopped (fun _ => false) st in
    let lastUserMessageId :=
      if updaterRan
      then findLastUserMessageId (length (State.messages st)) (State.messages st)
             (State.lastUserMessage st)
      else None in
    let st2 := State.setMessages dropLastAssistant st1 in
    let st3 := State.setIsLoading (fun _ => true) st2 in
    (st3,
     [wsClient_send "user_message"
        (mkUserMessage (State.lastUserMessage st) (State.conversationId st)
           (State.mode st) lastUserMessageId (Some true))]).

(** The controls of the render: the stop button is drawn when
    [isLoading || isJudging], the retry button when
    [!isLoading && !isJudging && lastUserMessage]. *)
Definition stopButtonShown (st : State.t) : bool :=
  State.isLoading st || State.isJudging st.

Definition retryButtonShown (st : State.t) : bool :=
  negb (State.isLoading st) && negb (State.isJudging st)
  && negb (bool_decide (State.lastUserMessage st = "")).

(** *** The effect on [inputEvaluation]

    [useEffect(() => {...}, [inputEvaluation])]: it runs after a render in
    which [inputEvaluation] is a new object. *)
Definition inputEvaluationEffect (st : State.t) : State.t :=
  match State.inputEvaluation st with
  | Some inputEvaluation =>
      if bool_decide (0 < length (JudgeEvaluation.criteria_scores inputEvaluation))
      then
        State.setMessages
          (fun prev =>
             match last prev with
             | Some lastMsg =>
                 if bool_decide (MessageType.role lastMsg = USER)
                 then take (length prev - 1) prev
                        ++ [MessageType.with_metadata
                              (Metadata.with_inputEvaluation inputEvaluation
                                 (MessageType.metadata lastMsg)) lastMsg]
                 else prev
             | None => prev
             end) st
      else st
  | None => st
  end.

(** *** The mounted component

    [App] passes the setters of its own [useState] as [onEvaluationUpdate] and
    [onIterationUpdate]; their identity never changes, so the mount effect
    runs once, after the first render, and the handlers registered with
    [wsClient.on] are the ones of that render, where [isStopped] is the
    initial [false]. *)
Definition isStopped_of_mount : bool := State.isStopped State.initial.

(** One event delivered by [wsClient]: the registered handler, then the
    effect on [inputEvaluation] when the handler replaced that object.
    Of the socket handlers only [handleUserInputEvaluation] does;
    [handleSend] does too, with an empty [criteria_scores], on which the
    effect does nothing. *)
Definition onWebSocketEvent (clock : Clock) (event : WebSocketEvent) (st : State.t)
    : State.t * list Effect :=
  let '(st', effects) := handleEvent isStopped_of_mount clock event st in
  (match event with
   | USER_INPUT_EVALUATION _ _ => inputEvaluationEffect st'
   | _ => st'
   end, effects).

(** A sequence of deliveries, each at its own clock reading. *)
Fixpoint onWebSocketEvents (events : list (Clock * WebSocketEvent)) (st : State.t)
    : State.t * list Effect :=
  match events with
  | [] => (st, [])
  | (clock, event) :: rest =>
      let '(st', effects) := onWebSocketEvent clock event st in
      let '(st'', effects') := onWebSocketEvents rest st' in
      (st'', effects ++ effects')
  end.

(** The criterion results accumulated so far for the answer being judged:
    [streamingCriteria.criteria_scores], nothing while [streamingCriteria] is
    [null]. *)
Definition accumulated (st : State.t) : list CriterionScore.t :=
  default [] (JudgeEvaluation.criteria_scores <$> State.streamingCriteria st).

(** A stream of [judge_criterion_result] events, one per arriving result. *)
Definition criterion_events (arrivals : list (Clock * CriterionScore.t))
    : list (Clock * WebSocketEvent) :=
  (fun a => (fst a, JUDGE_CRITERION_RESULT (snd a))) <$> arrivals.

(** The contents of the user messages of a history, oldest first. *)
Definition userContents (l : list MessageType.t) : list string :=
  MessageType.content <$> filter (fun m => MessageType.role m = USER) l.

(** [lastUserMessage] is the content of the last user message of the
    history, and is empty exactly when there is none. *)
Definition lastUserMessage_is_last (st : State.t) : Prop :=
  last (userContents (State.messages st))
  = if bool_decide (State.lastUserMessage st = "") then None
    else Some (State.lastUserMessage st).

(** A stream of [chatbot_chunk] events, one per arriving chunk. *)
Definition chunk_events (arrivals : list (Clock * string))
    : list (Clock * WebSocketEvent) :=
  (fun a => (fst a, CHATBOT_CHUNK (snd a))) <$> arrivals.

(** What a message is apart from its metadata. *)
Definition core (m : MessageType.t) : string * MessageRole * string * string :=
  (MessageType.id m, MessageType.role m, MessageType.content m, MessageType.timestamp m).

(** [disabled={isLoading || isJudging || !inputValue.trim()}] of the send
    button. *)
Definition sendButtonDisabled (trim : string -> string) (st : State.t) : bool :=
  State.isLoading st || State.isJudging st
  || bool_decide (trim (State.inputValue st) = "").

(** The messages a list of effects sends as new user messages: the
    [message] of each [wsClient.send('user_message', ...)] that carries no
    [skip_user_evaluation] (a retry carries [true]). *)
Definition newMessagesSent (effects : list Effect) : list string :=
  omap (fun effect =>
          match effect with
          | wsClient_send _ data =>
              match skip_user_evaluation data with
              | None => Some (message data)
              | Some _ => None
              end
          | _ => None
          end) effects.

(** What the user can do. *)
Inductive UserAction :=
| TypeText (text : string)
| PressSend (clock : Clock)
| PressStop
| PressRetry (updaterRan : bool).

(** A control can be pressed only where it is drawn; [handleSend] is also
    bound to the Enter key and guards itself. *)
Definition available (action : UserAction) (st : State.t) : bool :=
  match action with
  | TypeText _ => negb (State.isLoading st || State.isJudging st)
  | PressSend _ => true
  | PressStop => stopButtonShown st
  | PressRetry _ => retryButtonShown st
  end.

Section Component.
Variable trim : string -> string.

Definition onUserAction (action : UserAction) (st : State.t) : State.t * list Effect :=
  match action with
  | TypeText text => (State.setInputValue (fun _ => text) st, [])
  | PressSend clock => handleSend trim clock st
  | PressStop => handleStop st
  | PressRetry updaterRan => handleRetry updaterRan st
  end.

Inductive Step :=
| FromUser (action : UserAction)
| FromSocket (clock : Clock) (event : WebSocketEvent).

Definition step (s : Step) (st : State.t) : State.t * list Effect :=
  match s with
  | FromUser action => onUserAction action st
  | FromSocket clock event => onWebSocketEvent clock event st
  end.

Definition step_allowed (s : Step) (st : State.t) : bool :=
  match s with
  | FromUser action => available action st
  | FromSocket _ _ => true
  end.

(** A run from a state: the final state and every effect, in order;
    [None] when a step presses a control that is not drawn. *)
Fixpoint run (steps : list Step) (st : State.t) : option (State.t * list Effect) :=
  match steps with
  | [] => Some (st, [])
  | s :: rest =>
      if step_allowed s st then
        let '(st', effects) := step s st in
        match run rest st' with
        | Some (st'', effects') => Some (st'', effects ++ effects')
        | None => None
        end
      else None
  end.
End Component.
End ChatUI.

(** ** The Evaluation Engine of the back end

    The Python back end is not among the sources; its evaluation rule is
    taken from section 4.2 of the specification. A [CriterionResult] of the
    specification has the fields of [CriterionScore] above, which is its
    form on the wire. *)

Module EvaluationEngine.

(** Modelled from the spec: the [Criterion] of the data model (section 3),
    declared by the back end, which is missing from the sources. *)
Record Criterion := mkCriterion {
  name : string;
  description : string;
  weight : Q;
  enabled : bool;
  threshold : Q
}.

(** Modelled from the spec: the part of [CriteriaConfig] that [evaluate]
    reads (the back end's configuration is missing from the sources): the
    criteria in declaration order, the active profile's [overall_threshold]
    and the [traffic_light] bounds. *)
Record Config := mkConfig {
  criteria : list Criterion;
  overall_threshold : Q;
  green_threshold : Q;
  orange_threshold : Q
}.

Inductive TrafficLight := green | orange | red.

(** Modelled from the spec: the [Evaluation] of the data model (section 3);
    the back end's declaration is missing from the sources. *)
Record Evaluation := mkEvaluation {
  overall_score : Q;
  results : list CriterionScore.t;
  feedback : string;
  should_regenerate : bool;
  suggestions : list string;
  traffic_light : TrafficLight
}.

Inductive Error := EvaluationError.

(** Modelled from the spec: [enabled_criteria()] of the Criteria Registry
    (section 4.1, missing from the sources): declaration order, disabled
    entries excluded. *)
Definition enabled_criteria (cfg : Config) : list Criterion :=
  List.filter enabled (criteria cfg).

Definition sumQ (l : list Q) : Q := foldr Qplus 0%Q l.

(** Modelled from the spec: the aggregate score of the missing [evaluate]
    (section 4.2): [Σ(score_i · weight_i) / Σ(weight_i)]. *)
Definition weighted_overall (rs : list CriterionScore.t) : Q :=
  (sumQ ((fun r => CriterionScore.score r * CriterionScore.weight r)%Q <$> rs)
   / sumQ (CriterionScore.weight <$> rs))%Q.

(** Modelled from the spec: the traffic-light rule of the missing [evaluate]
    (section 4.2): [score ≥ green_threshold → green];
    [orange_threshold ≤ score < green_threshold → orange];
    [score < orange_threshold → red]. *)
Definition classify (green_bound orange_bound score : Q) : TrafficLight :=
  if Qle_bool green_bound score then green
  else if Qle_bool orange_bound score then orange
  else red.

(** Modelled from the spec: the regeneration decision of the missing
    [evaluate] (section 4.2): [overall < active_profile.overall_threshold
    OR ∃ enabled criterion with score < its own threshold]. *)
Definition regeneration_decision (overall overall_threshold : Q)
    (rs : list CriterionScore.t) : bool :=
  negb (Qle_bool overall_threshold overall)
  || existsb (fun r => negb (Qle_bool (CriterionScore.threshold r) (CriterionScore.score r))) rs.

(** Modelled from the spec: the suggestions of the missing [evaluate]
    (section 4.2): one entry per failing criterion, ["<name>: <feedback>"],
    in the order of the criteria. *)
Definition suggestions_of (rs : list CriterionScore.t) : list string :=
  (fun r => CriterionScore.name r +:+ ": " +:+ default "" (CriterionScore.feedback r))
    <$> List.filter (fun r => negb (CriterionScore.passed r)) rs.

Section Evaluate.
(** Modelled from the spec: the judge capability
    [score(content, criterion) → {score, feedback}] (section 6), an external
    collaborator; [None] is a capability failure or time-out. *)
Variable score : string -> Criterion -> option (Q * string).

(** Modelled from the spec: the overall [feedback] text of an [Evaluation];
    the specification does not say how the missing back end words it. *)
Variable summarise : list CriterionScore.t -> string.

(** What a call of [evaluate] leaves behind: its result, the capability
    calls it made and the results it handed to [on_criterion_result], both
    in order. *)
Record Outcome := mkOutcome {
  result : Error + Evaluation;
  capability_calls : list Criterion;
  emitted : list CriterionScore.t
}.

(** Modelled from the spec: the loop of the missing [evaluate] (section
    4.2): one capability call per criterion, in order; each result is emitted
    and appended; the first failure stops the loop. The boolean tells whether
    every call succeeded. *)
Fixpoint judge_each (content : string) (cs : list Criterion)
    : list Criterion * list CriterionScore.t * bool :=
  match cs with
  | [] => ([], [], true)
  | c :: rest =>
      match score content c with
      | None => ([c], [], false)
      | Some (s, fb) =>
          let r := CriterionScore.mk (name c) s (weight c) (threshold c)
                     (Qle_bool (threshold c) s) (Some fb) in
          let '(calls, rs, ok) := judge_each content rest in
          (c :: calls, r :: rs, ok)
      end
  end.

(** Modelled from the spec: [evaluate(content, criteria, on_criterion_result)]
    of the Evaluation Engine (section 4.2), missing from the sources. The
    weight check comes first; a failing capability call fails the whole
    evaluation. *)
Definition evaluate (content : string) (cfg : Config) : Outcome :=
  let cs := enabled_criteria cfg in
  if Qeq_bool (sumQ (weight <$> cs)) 0 then
    mkOutcome (inl EvaluationError) [] []
  else
    let '(calls, rs, ok) := judge_each content cs in
    if ok then
      let overall := weighted_overall rs in
      mkOutcome
        (inr (mkEvaluation overall rs (summarise rs)
                (regeneration_decision overall (overall_threshold cfg) rs)
                (suggestions_of rs)
                (classify (green_threshold cfg) (orange_threshold cfg) overall)))
        calls rs
    else mkOutcome (inl EvaluationError) calls rs.
End Evaluate.
End EvaluationEngine.

(** ** Sample data

    A short conversation used to run the definitions on concrete input. *)

Module Sample.
Definition clock1 : ChatUI.Clock := ChatUI.mkClock 1000 "2026-02-01T10:00:01.000Z".
Definition clock2 : ChatUI.Clock := ChatUI.mkClock 2000 "2026-02-01T10:00:02.000Z".
Definition clock3 : ChatUI.Clock := ChatUI.mkClock 3000 "2026-02-01T10:00:03.000Z".

Definition bias : CriterionScore.t :=
  CriterionScore.mk "bias" (80 # 1) (1 # 2) (70 # 1) true (Some "balanced").

Definition relevantie : CriterionScore.t :=
  CriterionScore.mk "relevantie" (60 # 1) (1 # 2) (70 # 1) false (Some "off topic").

Definition duidelijkheid : CriterionScore.t :=
  CriterionScore.mk "duidelijkheid" (45 # 1) (1 # 1) (60 # 1) false (Some "vague").

Definition verdict : JudgeEvaluation.t :=
  JudgeEvaluation.mk (70 # 1) [bias; relevantie] "needs work" true
    ["relevantie: off topic"] "🟢".

Definition question : MessageType.t :=
  MessageType.mk "msg_1000" USER "What is a permit?" "2026-02-01T10:00:01.000Z"
    Metadata.empty.

Definition answer : MessageType.t :=
  MessageType.mk "msg_2000" ASSISTANT "A permit is a licence." "2026-02-01T10:00:02.000Z"
    (Metadata.mk (Some 1) None (Some (JudgeEvaluation.placeholder [bias])) None).

Definition follow_up : MessageType.t :=
  MessageType.mk "msg_3000" USER "And a fee?" "2026-02-01T10:00:03.000Z"
    Metadata.empty.

(** The answer has arrived and is being judged. *)
Definition judging : ChatUI.State.t :=
  ChatUI.State.mk [question; answer] "" false true None
    (Some (JudgeEvaluation.placeholder [bias])) "" "What is a permit?" (Some "c1")
    INPUT_CRITIQUE (Some (JudgeEvaluation.placeholder [])) false.

(** The answer has been judged; the retry button is drawn. *)
Definition judged : ChatUI.State.t :=
  ChatUI.State.mk [question; answer] "" false false (Some verdict) None ""
    "What is a permit?" (Some "c1") INPUT_CRITIQUE
    (Some (JudgeEvaluation.placeholder [])) false.

(** Two questions were sent, the first one stopped before its answer. *)
Definition two_questions : ChatUI.State.t :=
  ChatUI.State.mk [question; follow_up] "" true false None None ""
    "And a fee?" None INPUT_CRITIQUE (Some (JudgeEvaluation.placeholder [])) false.

(** The example of the specification: [accuracy] and [relevance], each with
    weight [w] and threshold 70; the judge scores them 80 and 60. *)
Definition judge (content : string) (c : EvaluationEngine.Criterion)
    : option (Q * string) :=
  if String.eqb (EvaluationEngine.name c) "accuracy"
  then Some (80 # 1, "correct")%Q
  else Some (60 # 1, "off topic")%Q.

Definition config (w : Q) : EvaluationEngine.Config :=
  EvaluationEngine.mkConfig
    [EvaluationEngine.mkCriterion "accuracy" "factually correct" w true (70 # 1);
     EvaluationEngine.mkCriterion "relevance" "addresses the question" w true (70 # 1)]
    (60 # 1) (70 # 1) (40 # 1).
End Sample.

(** * Properties *)

(** ** Traffic lights *)

Section TrafficLightFacts.
Import TrafficLight.

Lemma glyphs_distinct : GREEN <> ORANGE /\ GREEN <> RED /\ ORANGE <> RED.
Proof. repeat split; discriminate. Qed.

Lemma Qle_bool_false (x y : Q) : Qle_bool x y = false <-> (y < x)%Q.
Proof.
  split.
  - intros H. apply Qnot_le_lt. intros Hle. apply Qle_bool_iff in Hle. congruence.
  - intros H. destruct (Qle_bool x y) eqn:E; [|reflexivity].
    apply Qle_bool_iff in E. exfalso. exact (Qlt_not_le _ _ H E).
Qed.

Lemma getIndicator_GREEN (s g o : Q) : getIndicator s g o = GREEN <-> (g <= s)%Q.
Proof.
  unfold getIndicator. rewrite <- Qle_bool_iff.
  destruct (Qle_bool g s); [tauto|].
  destruct (Qle_bool o s); split; discriminate.
Qed.

Lemma getIndicator_ORANGE (s g o : Q) :
  getIndicator s g o = ORANGE <-> (o <= s /\ s < g)%Q.
Proof.
  unfold getIndicator. rewrite <- Qle_bool_iff, <- Qle_bool_false.
  destruct (Qle_bool g s); [split; [discriminate | intros [_ ?]; discriminate]|].
  destruct (Qle_bool o s); [tauto|].
  split; [discriminate | intros [? _]; discriminate].
Qed.

(** Red is the bucket below both bounds; below the orange bound alone when
    the bounds are in order. *)
Lemma getIndicator_RED (s g o : Q) :
  getIndicator s g o = RED <-> (s < g /\ s < o)%Q.
Proof.
  unfold getIndicator. rewrite <- !Qle_bool_false.
  destruct (Qle_bool g s); [split; [discriminate | intros [? _]; discriminate]|].
  destruct (Qle_bool o s); [split; [discriminate | intros [_ ?]; discriminate]|].
  tauto.
Qed.

Lemma getIndicator_cases (s g o : Q) :
  getIndicator s g o = GREEN \/ getIndicator s g o = ORANGE \/ getIndicator s g o = RED.
Proof.
  unfold getIndicator. destruct (Qle_bool g s); [tauto|].
  destruct (Qle_bool o s); tauto.
Qed.

Lemma getTrafficLightColor_getIndicator (s : Q) :
  Message.getTrafficLightColor s = getIndicator s (70 # 1) (40 # 1).
Proof. reflexivity. Qed.
End TrafficLightFacts.

(** C1. For a score in [0,100] and bounds with
    [green_threshold > orange_threshold >= 0], the indicator of
    [TrafficLight] is green exactly when [score >= green_threshold], orange
    exactly when [orange_threshold <= score < green_threshold], red exactly
    when [score < orange_threshold], and it is exactly one of the three; the
    inline light of [Message] is this rule at the pair 70, 40. *)
Theorem traffic_light_buckets (score green_threshold orange_threshold : Q) :
  (0 <= score)%Q -> (score <= 100 # 1)%Q ->
  (0 <= orange_threshold)%Q -> (orange_threshold < green_threshold)%Q ->
  let light := TrafficLight.getIndicator score green_threshold orange_threshold in
  (light = TrafficLight.GREEN <-> (green_threshold <= score)%Q)
  /\ (light = TrafficLight.ORANGE
      <-> (orange_threshold <= score)%Q /\ (score < green_threshold)%Q)
  /\ (light = TrafficLight.RED <-> (score < orange_threshold)%Q)
  /\ ((light = TrafficLight.GREEN
       /\ light <> TrafficLight.ORANGE /\ light <> TrafficLight.RED)
      \/ (light = TrafficLight.ORANGE
          /\ light <> TrafficLight.GREEN /\ light <> TrafficLight.RED)
      \/ (light = TrafficLight.RED
          /\ light <> TrafficLight.GREEN /\ light <> TrafficLight.ORANGE))
  /\ Message.getTrafficLightColor score
     = TrafficLight.getIndicator score (70 # 1) (40 # 1).
Proof.
  intros _ _ _ Hog light. subst light.
  split; [apply getIndicator_GREEN|].
  split; [apply getIndicator_ORANGE|].
  split.
  { rewrite getIndicator_RED. split; [tauto|].
    intros H. split; [|exact H].
    eapply Qlt_trans; eassumption. }
  split; [|reflexivity].
  destruct (getIndicator_cases score green_threshold orange_threshold)
    as [E | [E | E]]; rewrite E.
  - left. repeat split; discriminate.
  - right; left. repeat split; discriminate.
  - right; right. repeat split; discriminate.
Qed.

Lemma traffic_light_buckets_witness :
  TrafficLight.getIndicator (55 # 1) (70 # 1) (40 # 1) = TrafficLight.ORANGE
  <-> ((40 # 1) <= (55 # 1))%Q /\ ((55 # 1) < (70 # 1))%Q.
Proof.
  refine (proj1 (proj2 (traffic_light_buckets (55 # 1) (70 # 1) (40 # 1) _ _ _ _)));
    vm_compute; congruence.
Defined.

(** C9. The inline light of a message uses the fixed bounds 70 and 40: green
    exactly when [score >= 70], orange exactly when [40 <= score < 70], red
    exactly when [score < 40]. No configured threshold is an input of it:
    the row drawn under a message is a function of the names and scores of
    its criteria alone. A [TrafficLight] that is given no bounds draws the
    same indicator. *)
Theorem inline_light_fixed_bounds (score : Q) :
  (Message.getTrafficLightColor score = TrafficLight.GREEN <-> (70 # 1 <= score)%Q)
  /\ (Message.getTrafficLightColor score = TrafficLight.ORANGE
      <-> (40 # 1 <= score)%Q /\ (score < 70 # 1)%Q)
  /\ (Message.getTrafficLightColor score = TrafficLight.RED <-> (score < 40 # 1)%Q)
  /\ (forall (message : MessageType.t) (evaluation : option JudgeEvaluation.t),
        Message.renderTrafficLights message evaluation
        = (fun criterion =>
             (CriterionScore.name criterion,
              TrafficLight.getIndicator (CriterionScore.score criterion) (70 # 1) (40 # 1)))
            <$> default [] (Message.trafficLights message))
  /\ (forall size : option TrafficLight.Size,
        TrafficLight.indicator
          (TrafficLight.render (TrafficLight.mk score None None size))
        = Message.getTrafficLightColor score).
Proof.
  rewrite getTrafficLightColor_getIndicator.
  split; [apply getIndicator_GREEN|].
  split; [apply getIndicator_ORANGE|].
  split.
  { rewrite getIndicator_RED. split; [tauto|].
    intros H. split; [|exact H].
    eapply Qlt_trans; [exact H|]. reflexivity. }
  split; [|reflexivity].
  intros message evaluation. unfold Message.renderTrafficLights.
  destruct (Message.trafficLights message); reflexivity.
Qed.

(** The inline light does not follow the configured bounds: with
    [green_threshold = 80] and [orange_threshold = 50] the rule of the
    specification puts the score 75 in the orange bucket, the inline light is
    green. *)
Example inline_light_ignores_configured_bounds :
  EvaluationEngine.classify (80 # 1) (50 # 1) (75 # 1) = EvaluationEngine.orange
  /\ Message.getTrafficLightColor (75 # 1) = TrafficLight.GREEN.
Proof. split; reflexivity. Qed.

(** ** The judge panel and the regeneration decision *)

Lemma criterionLight_indicator (r : CriterionScore.t) :
  TrafficLight.indicator (TrafficLight.render (JudgePanel.criterionLight r))
  = TrafficLight.getIndicator (CriterionScore.score r) (CriterionScore.threshold r)
      (Binary64.times (CriterionScore.threshold r) (7 # 10)).
Proof. reflexivity. Qed.

Lemma criterion_fails_iff_not_green (r : CriterionScore.t) :
  negb (Qle_bool (CriterionScore.threshold r) (CriterionScore.score r))
  = negb (String.eqb
            (TrafficLight.indicator (TrafficLight.render (JudgePanel.criterionLight r)))
            TrafficLight.GREEN).
Proof.
  rewrite criterionLight_indicator. unfold TrafficLight.getIndicator.
  destruct (Qle_bool (CriterionScore.threshold r) (CriterionScore.score r));
    [reflexivity|].
  destruct (Qle_bool _ (CriterionScore.score r)); reflexivity.
Qed.

Lemma regeneration_decision_by_lights (overall overall_threshold : Q)
    (rs : list CriterionScore.t) :
  EvaluationEngine.regeneration_decision overall overall_threshold rs
  = negb (Qle_bool overall_threshold overall)
    || existsb
         (fun r =>
            negb (String.eqb
                    (TrafficLight.indicator
                       (TrafficLight.render (JudgePanel.criterionLight r)))
                    TrafficLight.GREEN)) rs.
Proof.
  unfold EvaluationEngine.regeneration_decision. f_equal.
  induction rs as [|r rs IH]; [reflexivity|].
  cbn [existsb]. rewrite IH, criterion_fails_iff_not_green. reflexivity.
Qed.

(** The rounded product is what the panel compares with: the score the
    JSON text [29.4] is read as, with threshold 42, is at the bound
    [42 * 0.7] and is drawn orange, although [29.4] read as a double lies
    below the exact [0.7 * 42]; [70 * 0.7] is 49 and [90 * 0.7] is below
    63. *)
Example criterionLight_at_the_rounded_bound :
  let score := Binary64.to_Q (Binary64.of_Q (294 # 10)) in
  TrafficLight.indicator
    (TrafficLight.render
       (JudgePanel.criterionLight (CriterionScore.mk "bias" score (1 # 2) (42 # 1) false None)))
  = TrafficLight.ORANGE
  /\ (score < (42 # 1) * (7 # 10))%Q
  /\ (Binary64.times (70 # 1) (7 # 10) == 49 # 1)%Q
  /\ (Binary64.times (90 # 1) (7 # 10) < 63 # 1)%Q
  /\ Binary64.of_Q (7 # 10) = SpecFloat.S754_finite false 6305039478318694 (-53).
Proof. vm_compute. repeat split. Qed.

(** C7. In the breakdown of the judge panel the light of a criterion is the
    bucket rule of the overall light, [getIndicator], at the bounds of that
    criterion: green bound [threshold], orange bound the product
    [threshold * 0.7] as the component computes it. That orange bound is
    display only: the [should_regenerate] of an evaluation is "the overall
    score is below its threshold, or some criterion light is not green", so
    two lists of results whose lights agree on green or not green, orange
    against red included, get the same decision. *)
Theorem criterion_lights_display_only (evaluation : JudgeEvaluation.t) :
  JudgePanel.indicators (JudgePanel.render (Some evaluation) false)
  = Some (TrafficLight.getIndicator (JudgeEvaluation.overall_score evaluation)
            (70 # 1) (40 # 1),
          (fun criterion =>
             TrafficLight.getIndicator (CriterionScore.score criterion)
               (CriterionScore.threshold criterion)
               (Binary64.times (CriterionScore.threshold criterion) (7 # 10)))
            <$> JudgeEvaluation.criteria_scores evaluation)
  /\ (forall criterion : CriterionScore.t,
        let light :=
          TrafficLight.indicator (TrafficLight.render (JudgePanel.criterionLight criterion)) in
        let score := CriterionScore.score criterion in
        let threshold := CriterionScore.threshold criterion in
        let orange_bound := Binary64.times threshold (7 # 10) in
        (light = TrafficLight.GREEN <-> (threshold <= score)%Q)
        /\ (light = TrafficLight.ORANGE
            <-> (orange_bound <= score)%Q /\ (score < threshold)%Q)
        /\ (light = TrafficLight.RED
            <-> (score < threshold)%Q /\ (score < orange_bound)%Q))
  /\ (forall (judge : string -> EvaluationEngine.Criterion -> option (Q * string))
             (summarise : list CriterionScore.t -> string)
             (content : string) (cfg : EvaluationEngine.Config)
             (ev : EvaluationEngine.Evaluation),
        EvaluationEngine.result (EvaluationEngine.evaluate judge summarise content cfg)
        = inr ev ->
        EvaluationEngine.should_regenerate ev
        = negb (Qle_bool (EvaluationEngine.overall_threshold cfg)
                  (EvaluationEngine.overall_score ev))
          || existsb
               (fun r =>
                  negb (String.eqb
                          (TrafficLight.indicator
                             (TrafficLight.render (JudgePanel.criterionLight r)))
                          TrafficLight.GREEN))
               (EvaluationEngine.results ev))
  /\ (forall (overall overall_threshold : Q) (rs rs' : list CriterionScore.t),
        Forall2
          (fun r r' =>
             TrafficLight.indicator (TrafficLight.render (JudgePanel.criterionLight r))
             = TrafficLight.GREEN
             <-> TrafficLight.indicator
                   (TrafficLight.render (JudgePanel.criterionLight r'))
                 = TrafficLight.GREEN) rs rs' ->
        EvaluationEngine.regeneration_decision overall overall_threshold rs
        = EvaluationEngine.regeneration_decision overall overall_threshold rs').
Proof.
  split.
  { unfold JudgePanel.render, JudgePanel.indicators. f_equal. f_equal.
    rewrite <- list_fmap_compose. reflexivity. }
  split.
  { intros criterion. cbv zeta. rewrite criterionLight_indicator.
    split; [apply getIndicator_GREEN|].
    split; [apply getIndicator_ORANGE|apply getIndicator_RED]. }
  split.
  { intros judge summarise content cfg ev. unfold EvaluationEngine.evaluate.
    destruct (Qeq_bool _ 0); [discriminate|].
    destruct (EvaluationEngine.judge_each judge content _) as [[calls rs] ok].
    destruct ok; [|discriminate].
    cbn [EvaluationEngine.result]. intros [= <-].
    cbn [EvaluationEngine.should_regenerate EvaluationEngine.overall_score
         EvaluationEngine.results].
    apply regeneration_decision_by_lights. }
  intros overall overall_threshold rs rs' Hlights.
  unfold EvaluationEngine.regeneration_decision. f_equal.
  induction Hlights as [|r r' rs rs' Hr _ IH]; [reflexivity|].
  cbn [existsb]. rewrite IH. f_equal. f_equal.
  rewrite !criterionLight_indicator, !getIndicator_GREEN, <- !Qle_bool_iff in Hr.
  destruct (Qle_bool (CriterionScore.threshold r) (CriterionScore.score r)),
    (Qle_bool (CriterionScore.threshold r') (CriterionScore.score r'));
    try reflexivity; destruct Hr as [H1 H2];
    [discriminate (H1 eq_refl) | discriminate (H2 eq_refl)].
Qed.

Lemma criterion_lights_display_only_witness :
  let orange := CriterionScore.mk "relevance" (60 # 1) (1 # 2) (70 # 1) false None in
  let red := CriterionScore.mk "relevance" (10 # 1) (1 # 2) (70 # 1) false None in
  TrafficLight.indicator (TrafficLight.render (JudgePanel.criterionLight orange))
  = TrafficLight.ORANGE
  /\ TrafficLight.indicator (TrafficLight.render (JudgePanel.criterionLight red))
     = TrafficLight.RED
  /\ EvaluationEngine.regeneration_decision (70 # 1) (60 # 1) [Sample.bias; orange]
     = EvaluationEngine.regeneration_decision (70 # 1) (60 # 1) [Sample.bias; red].
Proof.
  intros orange red.
  split; [vm_compute; reflexivity|]. split; [vm_compute; reflexivity|].
  apply (proj2 (proj2 (proj2 (criterion_lights_display_only Sample.verdict)))).
  constructor; [tauto|].
  constructor; [|constructor].
  split; intros H; vm_compute in H; discriminate H.
Defined.

(** ** The socket client *)

(** C10. When the socket is absent or not [OPEN], [send] hands no frame to
    any socket, leaves the client as it was (the same socket reference, the
    same handler registry), and returns; it only writes one line with
    [console.error]. *)
Theorem send_when_not_connected {Data : Type}
    (JSON_stringify : string -> Data -> string -> option string)
    (this : WebSocketClient.t) (eventType : string) (data : Data) (timestamp : string) :
  (WebSocketClient.ws this = None
   \/ exists socket, WebSocketClient.ws this = Some socket
                     /\ WebSocketClient.readyState socket <> WebSocketClient.OPEN) ->
  let outcome := WebSocketClient.send JSON_stringify this eventType data timestamp in
  WebSocketClient.isConnected this = false
  /\ WebSocketClient.client outcome = this
  /\ WebSocketClient.sent <$> WebSocketClient.ws (WebSocketClient.client outcome)
     = WebSocketClient.sent <$> WebSocketClient.ws this
  /\ WebSocketClient.handlers (WebSocketClient.client outcome)
     = WebSocketClient.handlers this
  /\ WebSocketClient.ws (WebSocketClient.client outcome) = WebSocketClient.ws this
  /\ WebSocketClient.completion outcome = WebSocketClient.Returned
  /\ WebSocketClient.console_error outcome = ["WebSocket is not connected"].
Proof.
  intros H outcome. subst outcome.
  unfold WebSocketClient.send, WebSocketClient.isConnected.
  destruct H as [E | (socket & E & Hstate)]; rewrite E.
  - repeat split; simpl; rewrite ?E; reflexivity.
  - rewrite bool_decide_eq_false_2 by exact Hstate.
    destruct (decide (WebSocketClient.readyState socket = WebSocketClient.OPEN));
      [contradiction|].
    repeat split; simpl; rewrite ?E; reflexivity.
Qed.

Lemma send_when_not_connected_witness :
  WebSocketClient.client
    (WebSocketClient.send (fun _ data _ => Some data)
       (WebSocketClient.on (WebSocketClient.new "ws://localhost:8000/ws/chat")
          "judge_result" 7)
       "user_message" "hello" "2026-02-01T10:00:00.000Z")
  = WebSocketClient.on (WebSocketClient.new "ws://localhost:8000/ws/chat")
      "judge_result" 7.
Proof.
  refine (proj1 (proj2 (send_when_not_connected (fun _ data _ => Some data)
            (WebSocketClient.on (WebSocketClient.new "ws://localhost:8000/ws/chat")
               "judge_result" 7)
            "user_message" "hello" "2026-02-01T10:00:00.000Z" _))).
  left. reflexivity.
Defined.

(** ** The chat component: streamed judge results *)

Section ChatUIFacts.
Import ChatUI.

Lemma updateLastAssistant_nil (f : Metadata.t -> Metadata.t) :
  updateLastAssistant f [] = [].
Proof. reflexivity. Qed.

Lemma updateLastAssistant_snoc (f : Metadata.t -> Metadata.t)
    (earlier : list MessageType.t) (m : MessageType.t) :
  updateLastAssistant f (earlier ++ [m])
  = earlier ++ [if bool_decide (MessageType.role m = ASSISTANT)
                then MessageType.with_metadata (f (MessageType.metadata m)) m
                else m].
Proof.
  unfold updateLastAssistant. rewrite length_app. simpl.
  replace (Z.to_nat (Z.of_nat (length earlier + 1) - 1)) with (length earlier) by lia.
  rewrite list_lookup_middle by reflexivity.
  rewrite bool_decide_eq_true_2 by lia. simpl.
  destruct (bool_decide (MessageType.role m = ASSISTANT)); [|reflexivity].
  replace (length earlier) with (length earlier + 0) at 1 by lia.
  rewrite insert_app_r. reflexivity.
Qed.

Lemma snoc_cases {A : Type} (l : list A) :
  l = [] \/ exists earlier x, l = earlier ++ [x].
Proof.
  induction l as [|x l _] using rev_ind; [left; reflexivity|].
  right. exists l, x. reflexivity.
Qed.

Lemma take_all_but_last {A : Type} (earlier : list A) (x : A) :
  take (length (earlier ++ [x]) - 1) (earlier ++ [x]) = earlier.
Proof.
  rewrite length_app. simpl.
  replace (length earlier + 1 - 1) with (length earlier) by lia.
  apply take_app_length.
Qed.

Lemma criteria_scores_appendCriterion (criterion : CriterionScore.t)
    (prev : option JudgeEvaluation.t) :
  JudgeEvaluation.criteria_scores (appendCriterion criterion prev)
  = default [] (JudgeEvaluation.criteria_scores <$> prev) ++ [criterion].
Proof. destruct prev; reflexivity. Qed.

(** What one [judge_criterion_result] does to the mounted component. *)
Lemma onWebSocketEvent_criterion_result (clock : Clock) (criterion : CriterionScore.t)
    (st : State.t) :
  onWebSocketEvent clock (JUDGE_CRITERION_RESULT criterion) st
  = (let updated := appendCriterion criterion (State.streamingCriteria st) in
     State.setStreamingCriteria (fun _ => Some updated)
       (State.setMessages
          (updateLastAssistant (Metadata.with_streaming_evaluation updated)) st),
     []).
Proof. reflexivity. Qed.

Lemma fst_onWebSocketEvents_cons (clock : Clock) (event : WebSocketEvent)
    (rest : list (Clock * WebSocketEvent)) (st : State.t) :
  fst (onWebSocketEvents ((clock, event) :: rest) st)
  = fst (onWebSocketEvents rest (fst (onWebSocketEvent clock event st))).
Proof.
  cbn [onWebSocketEvents].
  destruct (onWebSocketEvent clock event st) as [st' effects].
  destruct (onWebSocketEvents rest st') as [st'' effects'] eqn:E.
  cbn [fst]. rewrite E. reflexivity.
Qed.

Lemma accumulated_after_events (arrivals : list (Clock * CriterionScore.t)) :
  forall st : State.t,
    accumulated (fst (onWebSocketEvents (criterion_events arrivals) st))
    = accumulated st ++ (snd <$> arrivals).
Proof.
  induction arrivals as [|[clock criterion] arrivals IH]; intros st.
  - simpl. rewrite app_nil_r. reflexivity.
  - change (criterion_events ((clock, criterion) :: arrivals))
      with ((clock, JUDGE_CRITERION_RESULT criterion) :: criterion_events arrivals).
    rewrite fst_onWebSocketEvents_cons, IH, onWebSocketEvent_criterion_result.
    unfold accumulated at 1. cbn [fst State.streamingCriteria State.setStreamingCriteria].
    cbn [fmap option_fmap option_map default].
    rewrite criteria_scores_appendCriterion. unfold id, accumulated.
    rewrite fmap_cons, <- app_assoc. reflexivity.
Qed.

Lemma last_assistant_after_events (arrivals : list (Clock * CriterionScore.t)) :
  forall (st : State.t) (earlier : list MessageType.t) (m : MessageType.t),
    State.messages st = earlier ++ [m] ->
    MessageType.role m = ASSISTANT ->
    arrivals <> [] ->
    let st' := fst (onWebSocketEvents (criterion_events arrivals) st) in
    exists ev,
      State.streamingCriteria st' = Some ev
      /\ State.messages st'
         = earlier ++ [MessageType.with_metadata
                         (Metadata.with_streaming_evaluation ev (MessageType.metadata m)) m].
Proof.
  induction arrivals as [|[clock criterion] arrivals IH]; intros st earlier m Hm Hrole Hne;
    [contradiction|].
  change (criterion_events ((clock, criterion) :: arrivals))
    with ((clock, JUDGE_CRITERION_RESULT criterion) :: criterion_events arrivals).
  cbv zeta. rewrite fst_onWebSocketEvents_cons, onWebSocketEvent_criterion_result.
  cbv zeta. cbn [fst].
  set (updated := appendCriterion criterion (State.streamingCriteria st)).
  set (st1 := State.setStreamingCriteria _ _).
  assert (Hm1 : State.messages st1
                = earlier ++ [MessageType.with_metadata
                                (Metadata.with_streaming_evaluation updated
                                   (MessageType.metadata m)) m]).
  { subst st1. simpl. rewrite Hm, updateLastAssistant_snoc.
    rewrite bool_decide_eq_true_2 by exact Hrole. reflexivity. }
  destruct arrivals as [|a arrivals].
  - exists updated. split; [reflexivity|exact Hm1].
  - destruct (IH st1 earlier _ Hm1 Hrole ltac:(discriminate)) as (ev & Hev & Hmsgs).
    exists ev. split; [exact Hev|]. rewrite Hmsgs. reflexivity.
Qed.

Lemma streamingCriteria_after_events (arrivals : list (Clock * CriterionScore.t)) :
  forall st : State.t,
    is_Some (State.streamingCriteria st) ->
    is_Some (State.streamingCriteria
               (fst (onWebSocketEvents (criterion_events arrivals) st))).
Proof.
  induction arrivals as [|[clock criterion] arrivals IH]; intros st Hst; [exact Hst|].
  change (criterion_events ((clock, criterion) :: arrivals))
    with ((clock, JUDGE_CRITERION_RESULT criterion) :: criterion_events arrivals).
  rewrite fst_onWebSocketEvents_cons. apply IH.
  rewrite onWebSocketEvent_criterion_result. simpl. eexists; reflexivity.
Qed.

(** C4. The criterion results accumulated during one evaluation are the
    results received, in arrival order: after [judge_evaluating] and the
    [judge_criterion_result] events [arrivals], [criteria_scores] is the list
    of their criteria. From any state, the events leave what was accumulated
    as a prefix and append their criteria behind it, one event one entry;
    and the copy shown under the answer (the last message, when it is an
    assistant message) is that list. *)
Theorem criteria_accumulate_in_arrival_order
    (start : Clock) (arrivals : list (Clock * CriterionScore.t)) (st : State.t) :
  JudgeEvaluation.criteria_scores
    <$> State.streamingCriteria
          (fst (onWebSocketEvents
                  ((start, JUDGE_EVALUATING) :: criterion_events arrivals) st))
  = Some (snd <$> arrivals)
  /\ accumulated (fst (onWebSocketEvents (criterion_events arrivals) st))
     = accumulated st ++ (snd <$> arrivals)
  /\ (forall (clock : Clock) (criterion : CriterionScore.t),
        accumulated (fst (onWebSocketEvent clock (JUDGE_CRITERION_RESULT criterion) st))
        = accumulated st ++ [criterion])
  /\ (forall (earlier : list MessageType.t) (m : MessageType.t),
        State.messages st = earlier ++ [m] ->
        MessageType.role m = ASSISTANT ->
        arrivals <> [] ->
        exists m',
          State.messages (fst (onWebSocketEvents (criterion_events arrivals) st))
          = earlier ++ [m']
          /\ Message.trafficLights m' = Some (accumulated st ++ (snd <$> arrivals))).
Proof.
  split.
  { rewrite fst_onWebSocketEvents_cons.
    set (st0 := fst (onWebSocketEvent start JUDGE_EVALUATING st)).
    assert (H0 : State.streamingCriteria st0 = Some (JudgeEvaluation.placeholder []))
      by reflexivity.
    pose proof (accumulated_after_events arrivals st0) as Hacc.
    destruct (streamingCriteria_after_events arrivals st0) as [ev Hev];
      [rewrite H0; eexists; reflexivity|].
    unfold accumulated in Hacc. rewrite Hev, H0 in Hacc. simpl in Hacc.
    rewrite Hev. simpl. f_equal. exact Hacc. }
  split; [apply accumulated_after_events|].
  split.
  { intros clock criterion. rewrite onWebSocketEvent_criterion_result.
    unfold accumulated at 1. simpl. apply criteria_scores_appendCriterion. }
  intros earlier m Hm Hrole Hne.
  destruct (last_assistant_after_events arrivals st earlier m Hm Hrole Hne)
    as (ev & Hev & Hmsgs).
  eexists. split; [exact Hmsgs|].
  unfold Message.trafficLights. simpl. rewrite Hrole. simpl.
  f_equal. rewrite <- accumulated_after_events.
  unfold accumulated. rewrite Hev. reflexivity.
Qed.

Lemma criteria_accumulate_in_arrival_order_witness :
  exists m',
    State.messages
      (fst (onWebSocketEvents
              (criterion_events [(Sample.clock2, Sample.relevantie);
                                 (Sample.clock3, Sample.duidelijkheid)])
              Sample.judging))
    = [Sample.question] ++ [m']
    /\ Message.trafficLights m'
       = Some (accumulated Sample.judging
               ++ (snd <$> [(Sample.clock2, Sample.relevantie);
                            (Sample.clock3, Sample.duidelijkheid)])).
Proof.
  apply (proj2 (proj2 (proj2
           (criteria_accumulate_in_arrival_order Sample.clock1
              [(Sample.clock2, Sample.relevantie); (Sample.clock3, Sample.duidelijkheid)]
              Sample.judging))) [Sample.question] Sample.answer);
    [reflexivity | reflexivity | discriminate].
Defined.

(** ** The chat component: the final evaluation *)

Lemma onWebSocketEvent_judge_result (clock : Clock) (evaluation : JudgeEvaluation.t)
    (st : State.t) :
  State.messages (fst (onWebSocketEvent clock (JUDGE_RESULT evaluation) st))
  = updateLastAssistant (Metadata.with_final_evaluation evaluation) (State.messages st).
Proof. reflexivity. Qed.

(** C8. When [judge_result] arrives at the mounted component and the last
    message is an assistant message, that message gets the evaluation in its
    metadata and loses its streaming evaluation; its id, role, content,
    timestamp and its other metadata keys stay, and so does every earlier
    message. When the last message is not an assistant message, or there is
    none, the history is unchanged. The partial evaluation of the state is
    cleared in both cases. *)
Theorem judge_result_attaches_to_last_assistant
    (clock : Clock) (evaluation : JudgeEvaluation.t) (st : State.t) :
  let st' := fst (onWebSocketEvent clock (JUDGE_RESULT evaluation) st) in
  (forall (earlier : list MessageType.t) (lastMsg : MessageType.t),
      State.messages st = earlier ++ [lastMsg] ->
      MessageType.role lastMsg = ASSISTANT ->
      exists lastMsg',
        State.messages st' = earlier ++ [lastMsg']
        /\ MessageType.id lastMsg' = MessageType.id lastMsg
        /\ MessageType.role lastMsg' = MessageType.role lastMsg
        /\ MessageType.content lastMsg' = MessageType.content lastMsg
        /\ MessageType.timestamp lastMsg' = MessageType.timestamp lastMsg
        /\ Metadata.evaluation (MessageType.metadata lastMsg') = Some evaluation
        /\ Metadata.streaming_evaluation (MessageType.metadata lastMsg') = None
        /\ Metadata.iteration (MessageType.metadata lastMsg')
           = Metadata.iteration (MessageType.metadata lastMsg)
        /\ Metadata.inputEvaluation (MessageType.metadata lastMsg')
           = Metadata.inputEvaluation (MessageType.metadata lastMsg))
  /\ ((forall lastMsg : MessageType.t,
         last (State.messages st) = Some lastMsg -> MessageType.role lastMsg <> ASSISTANT) ->
      State.messages st' = State.messages st)
  /\ State.streamingCriteria st' = None.
Proof.
  intros st'. subst st'. rewrite onWebSocketEvent_judge_result.
  split; [|split; [|reflexivity]].
  - intros earlier lastMsg Hm Hrole.
    rewrite Hm, updateLastAssistant_snoc, bool_decide_eq_true_2 by exact Hrole.
    eexists. split; [reflexivity|]. repeat split.
  - intros Hlast.
    destruct (snoc_cases (State.messages st)) as [E | (earlier & m & E)]; rewrite E.
    + reflexivity.
    + rewrite updateLastAssistant_snoc.
      rewrite bool_decide_eq_false_2; [reflexivity|].
      apply Hlast. rewrite E. apply last_snoc.
Qed.

Lemma judge_result_attaches_to_last_assistant_witness :
  (exists lastMsg',
     State.messages (fst (onWebSocketEvent Sample.clock3 (JUDGE_RESULT Sample.verdict)
                            Sample.judging))
     = [Sample.question] ++ [lastMsg']
     /\ Metadata.evaluation (MessageType.metadata lastMsg') = Some Sample.verdict
     /\ Metadata.streaming_evaluation (MessageType.metadata lastMsg') = None)
  /\ State.messages (fst (onWebSocketEvent Sample.clock3 (JUDGE_RESULT Sample.verdict)
                            Sample.two_questions))
     = State.messages Sample.two_questions.
Proof.
  split.
  - destruct (proj1 (judge_result_attaches_to_last_assistant Sample.clock3 Sample.verdict
                       Sample.judging) [Sample.question] Sample.answer eq_refl eq_refl)
      as (lastMsg' & H1 & _ & _ & _ & _ & H2 & H3 & _).
    exists lastMsg'. auto.
  - apply (proj1 (proj2 (judge_result_attaches_to_last_assistant Sample.clock3
                           Sample.verdict Sample.two_questions))).
    intros lastMsg H. injection H as <-. discriminate.
Defined.

(** ** The chat component: stop *)

(** A handler whose closure holds [isStopped = true] ignores chunks and
    judge events; the handlers of [chatbot_generating] and
    [chatbot_response] have no such test. *)
Lemma guarded_handlers_return_early (clock : Clock) (st : State.t) (chunk : string)
    (criterion : CriterionScore.t) (evaluation : JudgeEvaluation.t) :
  handleEvent true clock (CHATBOT_CHUNK chunk) st = (st, [])
  /\ handleEvent true clock JUDGE_EVALUATING st = (st, [])
  /\ handleEvent true clock (JUDGE_CRITERION_RESULT criterion) st = (st, [])
  /\ handleEvent true clock (JUDGE_RESULT evaluation) st = (st, []).
Proof. repeat split. Qed.

(** The handlers of the mounted component hold [isStopped = false], whatever
    the state says. *)
Lemma mounted_handlers_are_not_stopped (clock : Clock) (event : WebSocketEvent)
    (st : State.t) :
  fst (onWebSocketEvent clock event st)
  = match event with
    | USER_INPUT_EVALUATION _ _ =>
        inputEvaluationEffect (fst (handleEvent false clock event st))
    | _ => fst (handleEvent false clock event st)
    end.
Proof.
  unfold onWebSocketEvent. change isStopped_of_mount with false.
  destruct (handleEvent false clock event st) as [st' effects].
  destruct event; reflexivity.
Qed.

(** After a [handleSend] that passes its guard the effect on
    [inputEvaluation] finds an empty list and does nothing. *)
Lemma inputEvaluationEffect_after_handleSend (trim : string -> string) (clock : Clock)
    (st : State.t) :
  bool_decide (trim (State.inputValue st) = "")
  || State.isLoading st || State.isJudging st = false ->
  inputEvaluationEffect (fst (handleSend trim clock st)) = fst (handleSend trim clock st).
Proof.
  intros Hguard. unfold handleSend. rewrite Hguard. reflexivity.
Qed.

(** C2. Pressing stop does not make the component discard what the socket
    delivers next. Whatever [isStopped] the registered handlers read, a
    [chatbot_response] that arrives after [handleStop] adds a message to the
    list, and [chatbot_generating] turns the loading indicator back on and
    clears the evaluation shown; in the mounted component a
    [judge_criterion_result] is still accumulated and a [judge_result] still
    replaces the evaluation shown. *)
Theorem events_after_stop_are_not_discarded
    (clock : Clock) (response : string) (iteration : option nat)
    (conversation_id : option string) (st : State.t) :
  let stopped := fst (handleStop st) in
  State.isStopped stopped = true
  /\ (forall isStopped : bool,
        State.messages
          (fst (handleEvent isStopped clock
                  (CHATBOT_RESPONSE response iteration conversation_id) stopped))
        = State.messages st
          ++ [MessageType.mk (msg_id clock) ASSISTANT response (toISOString clock)
                (Metadata.mk iteration None None None)])
  /\ (forall isStopped : bool,
        let after := handleEvent isStopped clock CHATBOT_GENERATING stopped in
        State.isLoading (fst after) = true
        /\ State.currentEvaluation (fst after) = None
        /\ snd after = [onEvaluationUpdate None])
  /\ (forall criterion : CriterionScore.t,
        accumulated (fst (onWebSocketEvent clock (JUDGE_CRITERION_RESULT criterion) stopped))
        = accumulated stopped ++ [criterion])
  /\ (forall evaluation : JudgeEvaluation.t,
        let after := onWebSocketEvent clock (JUDGE_RESULT evaluation) stopped in
        State.currentEvaluation (fst after) = Some evaluation
        /\ snd after = [onEvaluationUpdate (Some evaluation)]).
Proof.
  intros stopped. split; [reflexivity|].
  split.
  { intros isStopped. subst stopped. simpl.
    unfold handleChatbotResponse. cbv zeta.
    destruct (truthy_string conversation_id); reflexivity. }
  split; [intros isStopped; repeat split|].
  split.
  { intros criterion. rewrite onWebSocketEvent_criterion_result.
    unfold accumulated at 1. simpl. apply criteria_scores_appendCriterion. }
  intros evaluation. split; reflexivity.
Qed.

(** ** The chat component: retry *)

Lemma dropLastAssistant_nil : dropLastAssistant [] = [].
Proof. reflexivity. Qed.

Lemma dropLastAssistant_snoc (earlier : list MessageType.t) (m : MessageType.t) :
  dropLastAssistant (earlier ++ [m])
  = if bool_decide (MessageType.role m = ASSISTANT) then earlier else earlier ++ [m].
Proof.
  unfold dropLastAssistant. rewrite last_snoc, take_all_but_last. reflexivity.
Qed.

(** The guard of [handleRetry] passes exactly where the retry button is
    drawn. *)
Lemma handleRetry_guard (st : State.t) :
  bool_decide (State.lastUserMessage st = "") || State.isLoading st || State.isJudging st
  = negb (retryButtonShown st).
Proof.
  unfold retryButtonShown.
  destruct (bool_decide (State.lastUserMessage st = "")),
    (State.isLoading st), (State.isJudging st); reflexivity.
Qed.

(** C3. Pressing retry (the button is drawn) drops the last message of the
    history exactly when it is an assistant message and leaves the history
    as it is otherwise, and sends one [user_message] whose [message] is the
    last user message, [lastUserMessage], with [skip_user_evaluation] set to
    [true], for the same conversation and mode. *)
Theorem retry_drops_assistant_and_resubmits (updaterRan : bool) (st : State.t) :
  retryButtonShown st = true ->
  let st' := fst (handleRetry updaterRan st) in
  let effects := snd (handleRetry updaterRan st) in
  (forall (earlier : list MessageType.t) (lastMsg : MessageType.t),
      State.messages st = earlier ++ [lastMsg] ->
      MessageType.role lastMsg = ASSISTANT ->
      State.messages st' = earlier)
  /\ ((forall lastMsg : MessageType.t,
         last (State.messages st) = Some lastMsg -> MessageType.role lastMsg <> ASSISTANT) ->
      State.messages st' = State.messages st)
  /\ (exists data : UserMessage,
        effects = [wsClient_send "user_message" data]
        /\ message data = State.lastUserMessage st
        /\ skip_user_evaluation data = Some true
        /\ conversation_id data = State.conversationId st
        /\ mode data = State.mode st).
Proof.
  intros Hshown st' effects. subst st' effects.
  unfold handleRetry. rewrite handleRetry_guard, Hshown. cbv zeta. simpl.
  split; [|split].
  - intros earlier lastMsg Hm Hrole.
    rewrite Hm, dropLastAssistant_snoc, bool_decide_eq_true_2 by exact Hrole.
    reflexivity.
  - intros Hlast.
    destruct (snoc_cases (State.messages st)) as [E | (earlier & m & E)]; rewrite E.
    + reflexivity.
    + rewrite dropLastAssistant_snoc, bool_decide_eq_false_2; [reflexivity|].
      apply Hlast. rewrite E. apply last_snoc.
  - eexists. split; [reflexivity|]. repeat split.
Qed.

Lemma retry_drops_assistant_and_resubmits_witness :
  State.messages (fst (handleRetry true Sample.judged)) = [Sample.question]
  /\ snd (handleRetry true Sample.judged)
     = [wsClient_send "user_message"
          (mkUserMessage "What is a permit?" (Some "c1") INPUT_CRITIQUE
             (Some "msg_1000") (Some true))].
Proof.
  split.
  - apply (proj1 (retry_drops_assistant_and_resubmits true Sample.judged eq_refl)
             [Sample.question] Sample.answer); reflexivity.
  - reflexivity.
Defined.

(** ** The chat component: input evaluation *)

(** The updater of [handleUserInputEvaluation], taken alone, touches the
    messages whose id is [messageId] and no other: positions, ids, roles,
    contents and timestamps stay; a message with another id is unchanged; a
    message with that id gains the criterion at the end of its
    [inputEvaluation] list. *)
Lemma handleUserInputEvaluation_frame (criterion : CriterionScore.t)
    (messageId : option string) (st : State.t) :
  Forall2
    (fun old new =>
       MessageType.id new = MessageType.id old
       /\ MessageType.role new = MessageType.role old
       /\ MessageType.content new = MessageType.content old
       /\ MessageType.timestamp new = MessageType.timestamp old
       /\ (Some (MessageType.id old) <> messageId -> new = old)
       /\ (Some (MessageType.id old) = messageId ->
           JudgeEvaluation.criteria_scores
             <$> Metadata.inputEvaluation (MessageType.metadata new)
           = Some (default []
                     (JudgeEvaluation.criteria_scores
                        <$> Metadata.inputEvaluation (MessageType.metadata old))
                   ++ [criterion])))
    (State.messages st)
    (State.messages (fst (handleUserInputEvaluation criterion messageId st))).
Proof.
  simpl. induction (State.messages st) as [|msg l IH]; [constructor|].
  rewrite fmap_cons. constructor; [|exact IH].
  destruct (bool_decide (Some (MessageType.id msg) = messageId)) eqn:E.
  - apply bool_decide_eq_true_1 in E. repeat split; try reflexivity.
    + intros Hne. contradiction.
    + intros _. simpl.
      destruct (Metadata.inputEvaluation (MessageType.metadata msg)); reflexivity.
  - apply bool_decide_eq_false_1 in E. repeat split; try reflexivity.
    intros Heq. contradiction.
Qed.

(** C6. The event [user_input_evaluation] for the message ["msg_1000"]
    arrives when the last message of the history is the user message
    ["msg_3000"]: the handler attaches the criterion to ["msg_1000"], and the
    effect on [inputEvaluation] that follows attaches the list accumulated in
    the state to ["msg_3000"] as well, whose metadata was empty. *)
Theorem input_evaluation_reaches_the_last_user_message :
  let event := USER_INPUT_EVALUATION Sample.duidelijkheid (Some "msg_1000") in
  let st' := fst (onWebSocketEvent Sample.clock3 event Sample.two_questions) in
  State.messages Sample.two_questions = [Sample.question; Sample.follow_up]
  /\ MessageType.id Sample.follow_up <> "msg_1000"
  /\ State.messages (fst (handleUserInputEvaluation Sample.duidelijkheid
                            (Some "msg_1000") Sample.two_questions))
     = [MessageType.with_metadata
          (Metadata.with_inputEvaluation
             (JudgeEvaluation.placeholder [Sample.duidelijkheid]) Metadata.empty)
          Sample.question;
        Sample.follow_up]
  /\ State.messages st'
     = [MessageType.with_metadata
          (Metadata.with_inputEvaluation
             (JudgeEvaluation.placeholder [Sample.duidelijkheid]) Metadata.empty)
          Sample.question;
        MessageType.with_metadata
          (Metadata.with_inputEvaluation
             (JudgeEvaluation.placeholder [Sample.duidelijkheid]) Metadata.empty)
          Sample.follow_up]
  /\ (exists new, State.messages st' !! 1 = Some new
                  /\ MessageType.metadata new <> MessageType.metadata Sample.follow_up).
Proof.
  cbv zeta. split; [reflexivity|].
  split; [discriminate|].
  split; [reflexivity|].
  split; [reflexivity|].
  eexists. split; [reflexivity|]. discriminate.
Qed.

Lemma run_cons (trim : string -> string) (s : Step) (rest : list Step)
    (st st1 st2 : State.t) (effects1 effects2 : list Effect) :
  step_allowed s st = true ->
  step trim s st = (st1, effects1) ->
  run trim rest st1 = Some (st2, effects2) ->
  run trim (s :: rest) st = Some (st2, effects1 ++ effects2).
Proof.
  intros Hallowed Hstep Hrest. cbn [run]. rewrite Hallowed, Hstep, Hrest. reflexivity.
Qed.

(** The state of that run is one the component reaches: a question is sent
    and stopped, a second one is sent. *)
Lemma two_questions_reachable (trim : string -> string) :
  trim "What is a permit?" <> "" ->
  trim "And a fee?" <> "" ->
  run trim
    [FromUser (TypeText "What is a permit?"); FromUser (PressSend Sample.clock1);
     FromUser PressStop;
     FromUser (TypeText "And a fee?"); FromUser (PressSend Sample.clock3)]
    State.initial
  = Some (Sample.two_questions,
          [wsClient_send "user_message"
             (mkUserMessage "What is a permit?" None INPUT_CRITIQUE (Some "msg_1000") None);
           wsClient_send "user_message"
             (mkUserMessage "And a fee?" None INPUT_CRITIQUE (Some "msg_3000") None)]).
Proof.
  intros H1 H2.
  pose (ph := Some (JudgeEvaluation.placeholder [])).
  pose (q1 := "What is a permit?"). pose (q2 := "And a fee?").
  pose (sent1 := wsClient_send "user_message"
                   (mkUserMessage q1 None INPUT_CRITIQUE (Some "msg_1000") None)).
  pose (sent2 := wsClient_send "user_message"
                   (mkUserMessage q2 None INPUT_CRITIQUE (Some "msg_3000") None)).
  change (run trim
            [FromUser (TypeText q1); FromUser (PressSend Sample.clock1);
             FromUser PressStop; FromUser (TypeText q2);
             FromUser (PressSend Sample.clock3)] State.initial
          = Some (Sample.two_questions,
                  [] ++ [sent1] ++ [] ++ [] ++ [sent2] ++ [])).
  apply (run_cons trim _ _ _
           (State.mk [] q1 false false None None "" "" None INPUT_CRITIQUE None false));
    [reflexivity | reflexivity | ].
  apply (run_cons trim _ _ _
           (State.mk [Sample.question] "" true false None None "" q1 None
              INPUT_CRITIQUE ph false));
    [reflexivity | | ].
  { cbn [step onUserAction]. unfold handleSend.
    cbn [State.inputValue State.isLoading State.isJudging].
    rewrite (bool_decide_eq_false_2 _ H1). vm_compute. reflexivity. }
  apply (run_cons trim _ _ _
           (State.mk [Sample.question] "" false false None None "" q1 None
              INPUT_CRITIQUE ph true));
    [reflexivity | reflexivity | ].
  apply (run_cons trim _ _ _
           (State.mk [Sample.question] q2 false false None None "" q1 None
              INPUT_CRITIQUE ph true));
    [reflexivity | reflexivity | ].
  apply (run_cons trim _ _ _ Sample.two_questions);
    [reflexivity | | reflexivity].
  cbn [step onUserAction]. unfold handleSend.
  cbn [State.inputValue State.isLoading State.isJudging].
  rewrite (bool_decide_eq_false_2 _ H2). vm_compute. reflexivity.
Qed.

Lemma two_questions_reachable_witness :
  run (fun s => s)
    [FromUser (TypeText "What is a permit?"); FromUser (PressSend Sample.clock1);
     FromUser PressStop;
     FromUser (TypeText "And a fee?"); FromUser (PressSend Sample.clock3)]
    State.initial
  = Some (Sample.two_questions,
          [wsClient_send "user_message"
             (mkUserMessage "What is a permit?" None INPUT_CRITIQUE (Some "msg_1000") None);
           wsClient_send "user_message"
             (mkUserMessage "And a fee?" None INPUT_CRITIQUE (Some "msg_3000") None)]).
Proof. apply two_questions_reachable; discriminate. Defined.
End ChatUIFacts.

(** ** The chat component: [lastUserMessage] and the history *)

Section LastUserMessage.
Import ChatUI.
Variable trim : string -> string.
Hypothesis trim_empty : trim "" = "".

Lemma userContents_snoc (l : list MessageType.t) (m : MessageType.t) :
  userContents (l ++ [m])
  = userContents l ++ (if bool_decide (MessageType.role m = USER)
                       then [MessageType.content m] else []).
Proof.
  unfold userContents. rewrite filter_app, fmap_app. f_equal.
  rewrite filter_cons, filter_nil.
  destruct (decide (MessageType.role m = USER)) as [E|E].
  - rewrite bool_decide_eq_true_2 by exact E. reflexivity.
  - rewrite bool_decide_eq_false_2 by exact E. reflexivity.
Qed.

Lemma userContents_fmap (g : MessageType.t -> MessageType.t) (l : list MessageType.t) :
  (forall m, MessageType.role (g m) = MessageType.role m
             /\ MessageType.content (g m) = MessageType.content m) ->
  userContents (g <$> l) = userContents l.
Proof.
  intros Hg. unfold userContents. induction l as [|m l IH]; [reflexivity|].
  rewrite fmap_cons, !filter_cons. destruct (Hg m) as [Hr Hc]. rewrite Hr.
  destruct (decide (MessageType.role m = USER)); [|exact IH].
  rewrite !fmap_cons, Hc, IH. reflexivity.
Qed.

Lemma userContents_updateLastAssistant (f : Metadata.t -> Metadata.t)
    (l : list MessageType.t) :
  userContents (updateLastAssistant f l) = userContents l.
Proof.
  destruct (snoc_cases l) as [-> | (earlier & m & ->)]; [reflexivity|].
  rewrite updateLastAssistant_snoc.
  destruct (bool_decide (MessageType.role m = ASSISTANT)); [|reflexivity].
  rewrite !userContents_snoc. reflexivity.
Qed.

Lemma userContents_dropLastAssistant (l : list MessageType.t) :
  userContents (dropLastAssistant l) = userContents l.
Proof.
  destruct (snoc_cases l) as [-> | (earlier & m & ->)]; [reflexivity|].
  rewrite dropLastAssistant_snoc.
  destruct (bool_decide (MessageType.role m = ASSISTANT)) eqn:E; [|reflexivity].
  apply bool_decide_eq_true_1 in E.
  rewrite userContents_snoc, bool_decide_eq_false_2, app_nil_r; [reflexivity|].
  rewrite E. discriminate.
Qed.

Lemma userContents_inputEvaluationEffect (st : State.t) :
  userContents (State.messages (inputEvaluationEffect st))
  = userContents (State.messages st).
Proof.
  unfold inputEvaluationEffect.
  destruct (State.inputEvaluation st) as [ev|]; [|reflexivity].
  destruct (bool_decide _); [|reflexivity]. simpl.
  destruct (snoc_cases (State.messages st)) as [E | (earlier & m & E)]; rewrite E;
    [reflexivity|].
  rewrite last_snoc.
  destruct (bool_decide (MessageType.role m = USER)); [|reflexivity].
  rewrite take_all_but_last, !userContents_snoc. reflexivity.
Qed.

Lemma lastUserMessage_inputEvaluationEffect (st : State.t) :
  State.lastUserMessage (inputEvaluationEffect st) = State.lastUserMessage st.
Proof.
  unfold inputEvaluationEffect.
  destruct (State.inputEvaluation st) as [ev|]; [|reflexivity].
  destruct (bool_decide _); reflexivity.
Qed.

Lemma lastUserMessage_is_last_ext (st st' : State.t) :
  userContents (State.messages st') = userContents (State.messages st) ->
  State.lastUserMessage st' = State.lastUserMessage st ->
  lastUserMessage_is_last st -> lastUserMessage_is_last st'.
Proof. unfold lastUserMessage_is_last. intros -> ->. trivial. Qed.

Lemma handleEvent_keeps_lastUserMessage_is_last (isStopped : bool) (clock : Clock)
    (event : WebSocketEvent) (st : State.t) :
  lastUserMessage_is_last st ->
  lastUserMessage_is_last (fst (handleEvent isStopped clock event st)).
Proof.
  intros Hst.
  destruct event as [ | | chunk | response iteration conv | | criterion | evaluation
                    | | | error | criterion messageId ];
    cbn [handleEvent];
    try (exact Hst);
    try (unfold handleChatbotChunk, handleJudgeEvaluating, handleJudgeCriterionResult,
           handleJudgeResult; destruct isStopped; [exact Hst|]);
    (eapply lastUserMessage_is_last_ext; [| |exact Hst]);
    try reflexivity.
  - unfold handleChatbotResponse. cbv zeta.
    destruct (truthy_string conv); simpl;
      rewrite userContents_snoc, app_nil_r; reflexivity.
  - unfold handleChatbotResponse. cbv zeta.
    destruct (truthy_string conv); reflexivity.
  - simpl. apply userContents_updateLastAssistant.
  - simpl. apply userContents_updateLastAssistant.
  - simpl. apply userContents_fmap. intros m.
    destruct (bool_decide _); split; reflexivity.
Qed.

Lemma step_keeps_lastUserMessage_is_last (s : Step) (st : State.t) :
  lastUserMessage_is_last st ->
  lastUserMessage_is_last (fst (step trim s st)).
Proof.
  intros Hst. destruct s as [action | clock event].
  - destruct action as [text | clock | | updaterRan]; cbn [step onUserAction].
    + exact Hst.
    + unfold handleSend.
      destruct (bool_decide (trim (State.inputValue st) = "")) eqn:E; [exact Hst|].
      destruct (State.isLoading st); [exact Hst|].
      destruct (State.isJudging st); [exact Hst|].
      apply bool_decide_eq_false_1 in E.
      assert (Hne : State.inputValue st <> "").
      { intros H0. apply E. rewrite H0. exact trim_empty. }
      unfold lastUserMessage_is_last. simpl.
      rewrite userContents_snoc. simpl. rewrite last_snoc.
      rewrite bool_decide_eq_false_2 by exact Hne. reflexivity.
    + exact Hst.
    + unfold handleRetry. destruct (_ || _); [exact Hst|].
      eapply lastUserMessage_is_last_ext; [| |exact Hst]; [|reflexivity].
      simpl. apply userContents_dropLastAssistant.
  - cbn [step]. unfold onWebSocketEvent.
    pose proof (handleEvent_keeps_lastUserMessage_is_last isStopped_of_mount clock event st Hst)
      as H.
    destruct (handleEvent isStopped_of_mount clock event st) as [st' effects].
    simpl in H |- *.
    destruct event; try exact H.
    eapply lastUserMessage_is_last_ext; [| |exact H].
    + apply userContents_inputEvaluationEffect.
    + apply lastUserMessage_inputEvaluationEffect.
Qed.

(** In every state the component reaches, [lastUserMessage] is the content
    of the last user message of the history. *)
Lemma run_keeps_lastUserMessage_is_last (steps : list Step) :
  forall (st st' : State.t) (effects : list Effect),
    lastUserMessage_is_last st ->
    run trim steps st = Some (st', effects) ->
    lastUserMessage_is_last st'.
Proof.
  induction steps as [|s steps IH]; intros st st' effects Hst Hrun.
  - injection Hrun as <- _. exact Hst.
  - cbn [run] in Hrun. destruct (step_allowed s st); [|discriminate].
    pose proof (step_keeps_lastUserMessage_is_last s st Hst) as H1.
    destruct (step trim s st) as [st1 effects1]. simpl in H1.
    destruct (run trim steps st1) as [[st2 effects2]|] eqn:E; [|discriminate].
    injection Hrun as <- _. exact (IH _ _ _ H1 E).
Qed.

(** The message a retry sends is the content of the last user message of
    the history, in every state the component reaches from its first
    render. *)
Lemma retry_sends_last_user_content (steps : list Step) (st : State.t)
    (effects : list Effect) (updaterRan : bool) :
  run trim steps State.initial = Some (st, effects) ->
  retryButtonShown st = true ->
  exists data,
    snd (handleRetry updaterRan st) = [wsClient_send "user_message" data]
    /\ last (userContents (State.messages st)) = Some (message data).
Proof.
  intros Hrun Hshown.
  assert (Hinv : lastUserMessage_is_last st).
  { eapply run_keeps_lastUserMessage_is_last; [|exact Hrun]. reflexivity. }
  unfold handleRetry. rewrite handleRetry_guard, Hshown. cbv zeta. simpl.
  eexists. split; [reflexivity|]. simpl.
  unfold lastUserMessage_is_last in Hinv. rewrite Hinv.
  unfold retryButtonShown in Hshown.
  destruct (bool_decide (State.lastUserMessage st = "")); [|reflexivity].
  rewrite andb_false_r in Hshown. discriminate.
Qed.
End LastUserMessage.

(** ** The Evaluation Engine *)

Section EvaluationEngineFacts.
Import EvaluationEngine.
Variable score : string -> Criterion -> option (Q * string).
Variable summarise : list CriterionScore.t -> string.

Lemma judge_each_all_succeed (content : string) (s : Criterion -> Q) (cs : list Criterion) :
  (forall c, c ∈ cs -> exists fb, score content c = Some (s c, fb)) ->
  exists rs,
    judge_each score content cs = (cs, rs, true)
    /\ Forall2 (fun c r => CriterionScore.score r = s c
                           /\ CriterionScore.weight r = weight c) cs rs.
Proof.
  induction cs as [|c cs IH]; intros Hall.
  - exists []. split; [reflexivity|constructor].
  - destruct (Hall c) as [fb Hc]; [left|].
    destruct IH as (rs & Hrs & Hrel).
    { intros c' Hc'. apply Hall. right. exact Hc'. }
    eexists. cbn [judge_each]. rewrite Hc, Hrs. split; [reflexivity|].
    constructor; [split; reflexivity|exact Hrel].
Qed.

Lemma sums_of_results (s : Criterion -> Q) (cs : list Criterion)
    (rs : list CriterionScore.t) :
  Forall2 (fun c r => CriterionScore.score r = s c
                      /\ CriterionScore.weight r = weight c) cs rs ->
  ((fun r => CriterionScore.score r * CriterionScore.weight r)%Q <$> rs)
  = ((fun c => s c * weight c)%Q <$> cs)
  /\ (CriterionScore.weight <$> rs) = (weight <$> cs).
Proof.
  induction 1 as [|c r cs rs [Hs Hw] _ [IH1 IH2]]; [split; reflexivity|].
  rewrite !fmap_cons, IH1, IH2, Hs, Hw. split; reflexivity.
Qed.

(** C5. Over the enabled criteria, with weights [w_i] and the scores [s_i]
    the judge returns, [evaluate] returns an evaluation whose
    [overall_score] is [Σ(s_i·w_i)/Σ(w_i)]; when the enabled weights sum to
    0 it fails with [EvaluationError] and has made no capability call and
    emitted no result. *)
Theorem evaluate_weighted_overall (content : string) (cfg : Config) :
  let cs := enabled_criteria cfg in
  let outcome := evaluate score summarise content cfg in
  ((sumQ (weight <$> cs) == 0)%Q ->
   result outcome = inl EvaluationError
   /\ capability_calls outcome = []
   /\ emitted outcome = [])
  /\ (forall s : Criterion -> Q,
        ~ (sumQ (weight <$> cs) == 0)%Q ->
        (forall c, c ∈ cs -> exists fb, score content c = Some (s c, fb)) ->
        exists ev,
          result outcome = inr ev
          /\ (overall_score ev
              == sumQ ((fun c => s c * weight c) <$> cs) / sumQ (weight <$> cs))%Q
          /\ capability_calls outcome = cs).
Proof.
  intros cs outcome. subst cs outcome. unfold evaluate. split.
  - intros Hzero. apply Qeq_bool_iff in Hzero. rewrite Hzero. repeat split.
  - intros s Hnonzero Hall.
    destruct (Qeq_bool (sumQ (weight <$> enabled_criteria cfg)) 0) eqn:E;
      [apply Qeq_bool_iff in E; contradiction|].
    destruct (judge_each_all_succeed content s _ Hall) as (rs & Hrs & Hrel).
    rewrite Hrs. eexists. split; [reflexivity|]. split; [|reflexivity].
    cbn [overall_score]. unfold weighted_overall.
    destruct (sums_of_results s _ rs Hrel) as [-> ->]. reflexivity.
Qed.
End EvaluationEngineFacts.

(** The example of the specification: weights 0.5 and 0.5, thresholds 70,
    scores 80 and 60 give [overall = 70], [accuracy] passed, [relevance]
    failed, [should_regenerate = true]. *)
Example evaluate_specification_example :
  match EvaluationEngine.result
          (EvaluationEngine.evaluate Sample.judge (fun _ => "") "A permit is a licence."
             (Sample.config (1 # 2))) with
  | inr ev =>
      Qeq_bool (EvaluationEngine.overall_score ev) (70 # 1) = true
      /\ CriterionScore.passed <$> EvaluationEngine.results ev = [true; false]
      /\ EvaluationEngine.should_regenerate ev = true
      /\ EvaluationEngine.suggestions ev = ["relevance: off topic"]
      /\ EvaluationEngine.traffic_light ev = EvaluationEngine.green
  | inl _ => False
  end.
Proof. vm_compute. repeat split. Qed.

Lemma evaluate_weighted_overall_witness :
  EvaluationEngine.result
    (EvaluationEngine.evaluate Sample.judge (fun _ => "") "A permit is a licence."
       (Sample.config 0%Q))
  = inl EvaluationEngine.EvaluationError
  /\ exists ev,
       EvaluationEngine.result
         (EvaluationEngine.evaluate Sample.judge (fun _ => "") "A permit is a licence."
            (Sample.config (1 # 2)))
       = inr ev
       /\ (EvaluationEngine.overall_score ev == 70 # 1)%Q.
Proof.
  split.
  - apply (proj1 (evaluate_weighted_overall Sample.judge (fun _ => "")
                    "A permit is a licence." (Sample.config 0%Q))).
    reflexivity.
  - destruct (proj2 (evaluate_weighted_overall Sample.judge (fun _ => "")
                       "A permit is a licence." (Sample.config (1 # 2)))
                (fun c => if String.eqb (EvaluationEngine.name c) "accuracy"
                          then 80 # 1 else 60 # 1)%Q)
      as (ev & Hev & Hoverall & _).
    + discriminate.
    + intros c Hc. unfold Sample.judge.
      destruct (String.eqb (EvaluationEngine.name c) "accuracy"); eexists; reflexivity.
    + exists ev. split; [exact Hev|]. rewrite Hoverall. reflexivity.
Defined.

(** * Further properties of the code *)

(** ** [TrafficLight]: indicator, label and bounds *)

Section TrafficLightMore.
Import TrafficLight.

(** X1. The indicator and the label of a [TrafficLight] always tell the same
    bucket: green with "Good", orange with "Needs Improvement", red with
    "Poor", for every score and every pair of bounds. *)
Theorem indicator_and_label_agree (p : Props) :
  (indicator (render p) = GREEN <-> label (render p) = "Good")
  /\ (indicator (render p) = ORANGE <-> label (render p) = "Needs Improvement")
  /\ (indicator (render p) = RED <-> label (render p) = "Poor").
Proof.
  unfold render, getIndicator, getLabel. cbn [indicator label].
  destruct (Qle_bool (greenThreshold_or_default p) (score p)).
  { repeat split; intros; (reflexivity || discriminate). }
  destruct (Qle_bool (orangeThreshold_or_default p) (score p));
    repeat split; intros; (reflexivity || discriminate).
Qed.

(** X2. A higher score never gets a worse light, whatever the bounds, in
    order or not: above a green score everything is green, below a red score
    everything is red. *)
Theorem getIndicator_monotone (s1 s2 g o : Q) :
  (s1 <= s2)%Q ->
  (getIndicator s1 g o = GREEN -> getIndicator s2 g o = GREEN)
  /\ (getIndicator s2 g o = RED -> getIndicator s1 g o = RED).
Proof.
  intros Hle. rewrite !getIndicator_GREEN, !getIndicator_RED. split.
  - intros H. eapply Qle_trans; eassumption.
  - intros [H1 H2]. split; eapply Qle_lt_trans; eassumption.
Qed.

Lemma getIndicator_monotone_witness :
  getIndicator (90 # 1) (70 # 1) (40 # 1) = GREEN
  /\ getIndicator (10 # 1) (70 # 1) (40 # 1) = RED.
Proof.
  split.
  - apply (proj1 (getIndicator_monotone (75 # 1) (90 # 1) (70 # 1) (40 # 1)
                    ltac:(vm_compute; congruence))).
    reflexivity.
  - apply (proj2 (getIndicator_monotone (10 # 1) (30 # 1) (70 # 1) (40 # 1)
                    ltac:(vm_compute; congruence))).
    reflexivity.
Defined.

(** X3. Some score is shown orange exactly when the orange bound is below
    the green bound: with equal or swapped bounds the component only ever
    shows green or red. *)
Theorem orange_needs_ordered_bounds (g o : Q) :
  (exists s, getIndicator s g o = ORANGE) <-> (o < g)%Q.
Proof.
  split.
  - intros [s Hs]. apply getIndicator_ORANGE in Hs. destruct Hs.
    eapply Qle_lt_trans; eassumption.
  - intros H. exists o. apply getIndicator_ORANGE. split; [apply Qle_refl|exact H].
Qed.
End TrafficLightMore.

(** ** [WebSocketClient]: registry, sending, reconnecting *)

Section WebSocketClientMore.
Import WebSocketClient.

Lemma remove_first_not_in (h : EventHandler) (l : list EventHandler) :
  h ∉ l -> remove_first h l = l.
Proof.
  induction l as [|x l IH]; intros Hnot; [reflexivity|].
  cbn [remove_first]. apply not_elem_of_cons in Hnot as [Hne Hnot].
  destruct (decide (x = h)); [congruence|]. rewrite IH by exact Hnot. reflexivity.
Qed.

Lemma remove_first_middle (h : EventHandler) (l1 l2 : list EventHandler) :
  h ∉ l1 -> remove_first h (l1 ++ h :: l2) = l1 ++ l2.
Proof.
  induction l1 as [|x l1 IH]; intros Hnot.
  - cbn. destruct (decide (h = h)); [reflexivity|contradiction].
  - apply not_elem_of_cons in Hnot as [Hne Hnot]. cbn.
    destruct (decide (x = h)); [congruence|]. rewrite IH by exact Hnot. reflexivity.
Qed.

Lemma handleEvent_on (this : t) (e e' : string) (h : EventHandler) :
  handleEvent (on this e h) e'
  = handleEvent this e' ++ (if decide (e' = e) then [h] else []).
Proof.
  unfold handleEvent, on. cbn [handlers].
  destruct (decide (e' = e)) as [->|Hne].
  - rewrite lookup_insert_eq. destruct (handlers this !! e); reflexivity.
  - rewrite lookup_insert_ne by congruence. rewrite app_nil_r. reflexivity.
Qed.

Lemma handleEvent_off (this : t) (e e' : string) (h : EventHandler) :
  handleEvent (off this e h) e'
  = if decide (e' = e) then remove_first h (handleEvent this e) else handleEvent this e'.
Proof.
  unfold handleEvent, off.
  destruct (handlers this !! e) as [l|] eqn:E; cbn [handlers].
  - destruct (decide (e' = e)) as [->|Hne].
    + rewrite lookup_insert_eq. reflexivity.
    + rewrite lookup_insert_ne by congruence. reflexivity.
  - destruct (decide (e' = e)) as [->|Hne]; [rewrite E|]; reflexivity.
Qed.

(** X4. [on] puts the handler behind the ones already registered for the
    event type, so an event calls its handlers in registration order, a
    handler registered twice is called twice, and the handlers of every
    other event type are the ones they were; the connection is untouched. *)
Theorem on_registers_in_order (this : t) (e e' : string) (h : EventHandler) :
  handleEvent (on this e h) e'
  = handleEvent this e' ++ (if decide (e' = e) then [h] else [])
  /\ handleEvent (on (on this e h) e h) e = handleEvent this e ++ [h; h]
  /\ ws (on this e h) = ws this.
Proof.
  split; [apply handleEvent_on|]. split; [|reflexivity].
  rewrite !handleEvent_on. destruct (decide (e = e)); [|contradiction].
  rewrite <- app_assoc. reflexivity.
Qed.

(** X5. [off] takes away one registration, the first one of that handler
    for that event type, and keeps the others in their order; a handler that
    is not registered for the type, or a type without handlers, leaves every
    event as it was. Registering a new handler and removing it again is a
    round trip. *)
Theorem off_removes_first_registration (this : t) (e : string) (h : EventHandler) :
  (forall l1 l2, handleEvent this e = l1 ++ h :: l2 -> h ∉ l1 ->
     handleEvent (off this e h) e = l1 ++ l2)
  /\ (forall e', e' <> e -> handleEvent (off this e h) e' = handleEvent this e')
  /\ (h ∉ handleEvent this e ->
      forall e', handleEvent (off this e h) e' = handleEvent this e'
                 /\ handleEvent (off (on this e h) e h) e' = handleEvent this e').
Proof.
  split; [|split].
  - intros l1 l2 Hl Hnot. rewrite handleEvent_off.
    destruct (decide (e = e)); [|contradiction].
    rewrite Hl. apply remove_first_middle. exact Hnot.
  - intros e' Hne. rewrite handleEvent_off.
    destruct (decide (e' = e)); [contradiction|reflexivity].
  - intros Hnot e'. rewrite !handleEvent_off.
    destruct (decide (e' = e)) as [->|Hne].
    + split; [apply remove_first_not_in; exact Hnot|].
      rewrite handleEvent_on. destruct (decide (e = e)); [|contradiction].
      rewrite remove_first_middle by exact Hnot. apply app_nil_r.
    + split; [reflexivity|]. rewrite handleEvent_on.
      destruct (decide (e' = e)); [contradiction|]. apply app_nil_r.
Qed.

Lemma off_removes_first_registration_witness :
  let client := on (on (on (new "ws://localhost:8000/ws/chat") "judge_result" 1)
                      "judge_result" 2) "judge_result" 1 in
  handleEvent (off client "judge_result" 1) "judge_result" = [2; 1]
  /\ handleEvent (off client "judge_result" 3) "judge_result" = [1; 2; 1]
  /\ handleEvent (off (on client "error" 4) "error" 4) "error" = [].
Proof.
  intros client. split; [|split].
  - apply (proj1 (off_removes_first_registration client "judge_result" 1) [] [2; 1]);
      [reflexivity|apply not_elem_of_nil].
  - apply (proj2 (proj2 (off_removes_first_registration client "judge_result" 3))).
    vm_compute. intros H. repeat (apply elem_of_cons in H as [H|H]; [discriminate|]).
    apply elem_of_nil in H. exact H.
  - apply (proj2 (proj2 (off_removes_first_registration client "error" 4))).
    apply not_elem_of_nil.
Defined.
End WebSocketClientMore.

Section WebSocketClientSending.
Import WebSocketClient.
Context {Data : Type}.
Variable JSON_stringify : string -> Data -> string -> option string.

Lemma send_step (this : t) (eventType : string) (data : Data) (toISOString : string) :
  let this' := client (send JSON_stringify this eventType data toISOString) in
  frames_sent this'
  = frames_sent this
    ++ (if isConnected this
        then from_option (fun frame => [frame]) []
               (JSON_stringify eventType data toISOString)
        else [])
  /\ isConnected this' = isConnected this
  /\ handlers this' = handlers this
  /\ reconnectAttempts this' = reconnectAttempts this.
Proof.
  unfold send, frames_sent, isConnected.
  destruct (ws this) as [socket|] eqn:E; cbn.
  - destruct (decide (readyState socket = OPEN)) as [Hopen|Hnot].
    + rewrite (bool_decide_eq_true_2 _ Hopen).
      destruct (JSON_stringify eventType data toISOString); cbn; rewrite ?E; cbn.
      * rewrite (bool_decide_eq_true_2 _ Hopen). repeat split.
      * rewrite (bool_decide_eq_true_2 _ Hopen), app_nil_r. repeat split.
    + rewrite (bool_decide_eq_false_2 _ Hnot). cbn. rewrite E.
      rewrite (bool_decide_eq_false_2 _ Hnot), app_nil_r. repeat split.
  - rewrite E. repeat split.
Qed.

(** X6. Over any sequence of [send] calls the frames reach the socket in
    call order behind the frames sent before: on an open socket one frame
    per call whose message serialises (a call whose [JSON.stringify] throws
    sends nothing), on a missing or not open socket none. No call changes
    whether the client is connected, its handlers or its reconnect count. *)
Theorem sendAll_frames_in_call_order (calls : list (string * Data * string)) :
  forall this : t,
    frames_sent (sendAll JSON_stringify this calls)
    = frames_sent this
      ++ (if isConnected this
          then omap (fun call => JSON_stringify call.1.1 call.1.2 call.2) calls
          else [])
    /\ isConnected (sendAll JSON_stringify this calls) = isConnected this
    /\ handlers (sendAll JSON_stringify this calls) = handlers this
    /\ reconnectAttempts (sendAll JSON_stringify this calls) = reconnectAttempts this.
Proof.
  induction calls as [|[[eventType data] toISOString] calls IH]; intros this.
  - cbn. destruct (isConnected this); rewrite app_nil_r; repeat split.
  - cbn [sendAll].
    destruct (send_step this eventType data toISOString) as (Hf & Hc & Hh & Hr).
    destruct (IH (client (send JSON_stringify this eventType data toISOString)))
      as (IHf & IHc & IHh & IHr).
    rewrite IHf, IHc, IHh, IHr, Hf, Hc, Hh, Hr.
    split; [|repeat split].
    rewrite <- app_assoc. f_equal.
    destruct (isConnected this); [|reflexivity].
    cbn. destruct (JSON_stringify eventType data toISOString); reflexivity.
Qed.
End WebSocketClientSending.

Section WebSocketClientReconnect.
Import WebSocketClient.

Lemma attemptReconnects_exhausted (n : nat) (this : t) :
  maxReconnectAttempts this <= reconnectAttempts this ->
  attemptReconnects n this = (this, []).
Proof.
  intros Hmax. induction n as [|n IH]; [reflexivity|].
  cbn [attemptReconnects]. unfold attemptReconnect.
  rewrite bool_decide_eq_false_2 by lia. cbn. rewrite IH. reflexivity.
Qed.

(** X7. Reconnecting backs off linearly and gives up: of [n] closes in a
    row, the [k]-th attempt sets a timer of [reconnectDelay * k]
    milliseconds, the count of attempts stops at [maxReconnectAttempts], and
    once it is reached a close sets no timer any more. Socket and handlers
    are untouched. *)
Theorem attemptReconnects_backoff (n : nat) :
  forall this : t,
    reconnectAttempts this <= maxReconnectAttempts this ->
    let a := reconnectAttempts this in
    let result := attemptReconnects n this in
    reconnectAttempts (fst result) = Nat.min (a + n) (maxReconnectAttempts this)
    /\ snd result
       = (fun k => reconnectDelay this * k)
           <$> seq (S a) (Nat.min n (maxReconnectAttempts this - a))
    /\ ws (fst result) = ws this
    /\ handlers (fst result) = handlers this.
Proof.
  induction n as [|n IH]; intros this Hle a result; subst a result.
  - cbn. repeat split. lia.
  - destruct (decide (reconnectAttempts this < maxReconnectAttempts this)) as [Hlt|Hge].
    + cbn [attemptReconnects]. unfold attemptReconnect.
      rewrite bool_decide_eq_true_2 by exact Hlt. cbn [reconnecting setTimeout].
      set (this1 := mk _ _ _ _ _ _).
      specialize (IH this1 ltac:(cbn; lia)).
      destruct (attemptReconnects n this1) as [this' delays].
      cbv zeta in IH.
      cbn [fst snd reconnectAttempts maxReconnectAttempts reconnectDelay ws handlers
           this1] in IH.
      cbn [fst snd from_option]. destruct IH as (IH1 & IH2 & IH3 & IH4).
      split; [rewrite IH1; lia|]. split; [|split; assumption].
      rewrite IH2.
      replace (Nat.min (S n) (maxReconnectAttempts this - reconnectAttempts this))
        with (S (Nat.min n (maxReconnectAttempts this - S (reconnectAttempts this))))
        by lia.
      reflexivity.
    + rewrite attemptReconnects_exhausted by lia. cbn [fst snd].
      replace (maxReconnectAttempts this - reconnectAttempts this) with 0 by lia.
      rewrite Nat.min_0_r. repeat split. lia.
Qed.

Lemma attemptReconnects_backoff_witness :
  snd (attemptReconnects 7 (new "ws://localhost:8000/ws/chat"))
  = [1000; 2000; 3000; 4000; 5000]
  /\ reconnectAttempts (fst (attemptReconnects 7 (new "ws://localhost:8000/ws/chat"))) = 5.
Proof.
  destruct (attemptReconnects_backoff 7 (new "ws://localhost:8000/ws/chat")
              ltac:(cbn; lia)) as (H1 & H2 & _).
  split; [rewrite H2|rewrite H1]; reflexivity.
Defined.

(** X8. After [disconnect] the client holds no socket: it is not connected,
    a [send] hands over nothing and only logs the error, and a second
    [disconnect] changes nothing. The registered handlers stay, and so does
    the reconnect count: the next [attemptReconnect], which the close handler
    of the socket calls, sets the timer it would have set. *)
Theorem disconnect_keeps_handlers_and_stops_sending {Data : Type}
    (JSON_stringify : string -> Data -> string -> option string)
    (this : t) (eventType : string) (data : Data) (toISOString : string) :
  isConnected (disconnect this) = false
  /\ send JSON_stringify (disconnect this) eventType data toISOString
     = mkOutcome (disconnect this) ["WebSocket is not connected"] Returned
  /\ frames_sent (disconnect this) = []
  /\ (forall e, handleEvent (disconnect this) e = handleEvent this e)
  /\ setTimeout (attemptReconnect (disconnect this)) = setTimeout (attemptReconnect this)
  /\ disconnect (disconnect this) = disconnect this.
Proof.
  unfold disconnect, isConnected, send, frames_sent, attemptReconnect.
  destruct (ws this) as [socket|] eqn:E; cbn; rewrite ?E; repeat split;
    destruct (bool_decide _); reflexivity.
Qed.
End WebSocketClientReconnect.

(** ** [ChatUI]: what the socket events do to the history *)

Section ChatUIHistory.
Import ChatUI.

Lemma core_fmap_updateLastAssistant (f : Metadata.t -> Metadata.t)
    (l : list MessageType.t) :
  core <$> updateLastAssistant f l = core <$> l.
Proof.
  destruct (snoc_cases l) as [-> | (earlier & m & ->)]; [reflexivity|].
  rewrite updateLastAssistant_snoc, !fmap_app. f_equal.
  destruct (bool_decide (MessageType.role m = ASSISTANT)); reflexivity.
Qed.

Lemma core_fmap_preserved (g : MessageType.t -> MessageType.t) (l : list MessageType.t) :
  (forall m, core (g m) = core m) -> core <$> (g <$> l) = core <$> l.
Proof.
  intros Hg. rewrite <- list_fmap_compose. apply list_fmap_ext.
  intros i m _. apply Hg.
Qed.

Lemma core_fmap_inputEvaluationEffect (st : State.t) :
  core <$> State.messages (inputEvaluationEffect st) = core <$> State.messages st.
Proof.
  unfold inputEvaluationEffect.
  destruct (State.inputEvaluation st) as [ev|]; [|reflexivity].
  destruct (bool_decide _); [|reflexivity]. cbn [State.messages State.setMessages].
  destruct (snoc_cases (State.messages st)) as [E | (earlier & m & E)]; rewrite E;
    [reflexivity|].
  rewrite last_snoc.
  destruct (bool_decide (MessageType.role m = USER)); [|reflexivity].
  rewrite take_all_but_last, !fmap_app. reflexivity.
Qed.

Lemma userContents_of_core (l l' : list MessageType.t) :
  core <$> l = core <$> l' -> userContents l = userContents l'.
Proof.
  revert l'. induction l as [|m l IH]; intros [|m' l'] H; try discriminate;
    [reflexivity|].
  rewrite !fmap_cons in H. injection H as Hid Hrole Hcontent _ Hrest.
  unfold userContents in *. rewrite !filter_cons, Hrole.
  destruct (decide (MessageType.role m' = USER)).
  - rewrite !fmap_cons, Hcontent. f_equal. apply IH. exact Hrest.
  - apply IH. exact Hrest.
Qed.

(** X9. No event from the socket removes, reorders or rewrites a message of
    the history: ids, roles, contents and timestamps stay as they are and in
    place (only metadata changes), and the only event that adds a message is
    [chatbot_response], which puts one assistant message with the response at
    the end. This holds for every event, [error] included. *)
Theorem socket_events_keep_history (clock : Clock) (event : WebSocketEvent)
    (st : State.t) :
  core <$> State.messages (fst (onWebSocketEvent clock event st))
  = (core <$> State.messages st)
    ++ match event with
       | CHATBOT_RESPONSE response _ _ =>
           [(msg_id clock, ASSISTANT, response, toISOString clock)]
       | _ => []
       end.
Proof.
  rewrite mounted_handlers_are_not_stopped.
  destruct event as [ | | chunk | response iteration conv | | criterion | evaluation
                    | | | error | criterion messageId ];
    try (cbn; rewrite app_nil_r; reflexivity).
  - unfold handleEvent, handleChatbotResponse. cbv zeta.
    destruct (truthy_string conv); cbn; rewrite fmap_app; reflexivity.
  - cbn. rewrite app_nil_r. apply core_fmap_updateLastAssistant.
  - cbn. rewrite app_nil_r. apply core_fmap_updateLastAssistant.
  - rewrite core_fmap_inputEvaluationEffect. cbn. rewrite app_nil_r.
    apply core_fmap_preserved. intros m. destruct (bool_decide _); reflexivity.
Qed.

Lemma string_app_assoc (a b c : string) : (a +:+ b) +:+ c = a +:+ (b +:+ c).
Proof.
  induction a as [|x a IH]; [reflexivity|].
  change (String x ((a +:+ b) +:+ c) = String x (a +:+ (b +:+ c))).
  rewrite IH. reflexivity.
Qed.

Lemma string_app_empty_r (a : string) : a +:+ "" = a.
Proof.
  induction a as [|x a IH]; [reflexivity|].
  change (String x (a +:+ "") = String x a). rewrite IH. reflexivity.
Qed.

(** X10. The text being streamed is the chunks received, in arrival order,
    behind what was there; chunks do not touch the history. The
    [chatbot_response] that follows empties the streamed text, ends loading
    and appends a message whose content is the response of the event, not
    the streamed text. *)
Theorem chunks_accumulate_until_response
    (arrivals : list (Clock * string)) (clock : Clock) (response : string)
    (iteration : option nat) (conv : option string) :
  forall st : State.t,
    let streamed := fst (onWebSocketEvents (chunk_events arrivals) st) in
    let answered :=
      fst (onWebSocketEvent clock (CHATBOT_RESPONSE response iteration conv) streamed) in
    State.streamingMessage streamed
    = State.streamingMessage st +:+ foldr String.append "" (snd <$> arrivals)
    /\ State.messages streamed = State.messages st
    /\ State.streamingMessage answered = ""
    /\ State.isLoading answered = false
    /\ last (State.messages answered)
       = Some (MessageType.mk (msg_id clock) ASSISTANT response (toISOString clock)
                 (Metadata.mk iteration None None None)).
Proof.
  intros st streamed answered.
  assert (H : State.streamingMessage streamed
              = State.streamingMessage st +:+ foldr String.append "" (snd <$> arrivals)
              /\ State.messages streamed = State.messages st).
  { subst streamed. clear answered. revert st.
    induction arrivals as [|[c chunk] arrivals IH]; intros st.
    - cbn. rewrite string_app_empty_r. split; reflexivity.
    - change (chunk_events ((c, chunk) :: arrivals))
        with ((c, CHATBOT_CHUNK chunk) :: chunk_events arrivals).
      rewrite fst_onWebSocketEvents_cons.
      destruct (IH (fst (onWebSocketEvent c (CHATBOT_CHUNK chunk) st))) as [IH1 IH2].
      rewrite IH1, IH2. cbn. rewrite string_app_assoc. split; reflexivity. }
  destruct H as [H1 H2]. split; [exact H1|]. split; [exact H2|].
  subst answered. unfold onWebSocketEvent, handleEvent, handleChatbotResponse.
  cbv zeta. destruct (truthy_string conv); cbn; rewrite last_snoc; repeat split.
Qed.
End ChatUIHistory.

(** ** [ChatUI]: sending, stopping, retrying *)

Section ChatUIControls.
Import ChatUI.
Variable trim : string -> string.

Lemma handleSend_guard (st : State.t) :
  bool_decide (trim (State.inputValue st) = "") || State.isLoading st || State.isJudging st
  = sendButtonDisabled trim st.
Proof.
  unfold sendButtonDisabled.
  destruct (bool_decide _), (State.isLoading st), (State.isJudging st); reflexivity.
Qed.

(** X11. [handleSend] does nothing and sends nothing exactly where the send
    button is disabled (blank input, loading or judging), also when it is
    reached through the Enter key. Otherwise it appends one user message
    with the typed text and sends one [user_message] whose [message_id] is
    the id of that message and whose [message] is its content, clears the
    input, starts loading, clears the stop flag and resets the input
    evaluation. *)
Theorem handleSend_acts_where_enabled (clock : Clock) (st : State.t) :
  (sendButtonDisabled trim st = true -> handleSend trim clock st = (st, []))
  /\ (sendButtonDisabled trim st = false ->
      let st' := fst (handleSend trim clock st) in
      exists userMessage data,
        State.messages st' = State.messages st ++ [userMessage]
        /\ snd (handleSend trim clock st) = [wsClient_send "user_message" data]
        /\ MessageType.role userMessage = USER
        /\ MessageType.content userMessage = State.inputValue st
        /\ MessageType.metadata userMessage = Metadata.empty
        /\ message_id data = Some (MessageType.id userMessage)
        /\ message data = MessageType.content userMessage
        /\ conversation_id data = State.conversationId st
        /\ skip_user_evaluation data = None
        /\ State.inputValue st' = ""
        /\ State.lastUserMessage st' = State.inputValue st
        /\ State.isLoading st' = true
        /\ State.isStopped st' = false
        /\ State.inputEvaluation st' = Some (JudgeEvaluation.placeholder [])).
Proof.
  unfold handleSend. rewrite handleSend_guard. split; intros ->; [reflexivity|].
  cbv zeta. cbn. eexists _, _. repeat split.
Qed.

(** X12. While an answer is being generated or judged (the stop button is
    drawn), no second pipeline can be started: the send button is disabled,
    the retry button is not drawn, and [handleSend] and [handleRetry] change
    nothing and send nothing. [handleStop] ends that: after it the stop
    button is gone and the retry button is drawn as soon as a message has
    been sent before. *)
Theorem busy_blocks_send_and_retry (clock : Clock) (updaterRan : bool) (st : State.t) :
  (stopButtonShown st = true ->
   sendButtonDisabled trim st = true
   /\ retryButtonShown st = false
   /\ handleSend trim clock st = (st, [])
   /\ handleRetry updaterRan st = (st, []))
  /\ stopButtonShown (fst (handleStop st)) = false
  /\ retryButtonShown (fst (handleStop st))
     = negb (bool_decide (State.lastUserMessage st = ""))
  /\ State.messages (fst (handleStop st)) = State.messages st
  /\ snd (handleStop st) = [].
Proof.
  split; [|repeat split].
  unfold stopButtonShown. intros Hbusy.
  unfold handleSend, handleRetry. rewrite handleSend_guard, handleRetry_guard.
  unfold sendButtonDisabled, retryButtonShown.
  destruct (State.isLoading st), (State.isJudging st); try discriminate;
    cbn; rewrite ?orb_true_r; repeat split.
Qed.
End ChatUIControls.

Lemma handleSend_acts_where_enabled_witness :
  ChatUI.handleSend (fun text => text) Sample.clock3 Sample.judging
  = (Sample.judging, [])
  /\ exists userMessage data,
       ChatUI.State.messages
         (fst (ChatUI.handleSend (fun text => text) Sample.clock3
                 (ChatUI.State.setInputValue (fun _ => "And a fee?") Sample.judged)))
       = ChatUI.State.messages Sample.judged ++ [userMessage]
       /\ snd (ChatUI.handleSend (fun text => text) Sample.clock3
                 (ChatUI.State.setInputValue (fun _ => "And a fee?") Sample.judged))
          = [ChatUI.wsClient_send "user_message" data]
       /\ ChatUI.message_id data = Some (MessageType.id userMessage).
Proof.
  split.
  - apply (proj1 (handleSend_acts_where_enabled (fun text => text) Sample.clock3
                    Sample.judging)).
    reflexivity.
  - destruct (proj2 (handleSend_acts_where_enabled (fun text => text) Sample.clock3
                       (ChatUI.State.setInputValue (fun _ => "And a fee?") Sample.judged))
                eq_refl)
      as (userMessage & data & H1 & H2 & _ & _ & _ & H3 & _).
    exists userMessage, data. auto.
Defined.

Lemma busy_blocks_send_and_retry_witness :
  ChatUI.handleSend (fun text => text) Sample.clock3
    (ChatUI.State.setInputValue (fun _ => "And a fee?") Sample.judging)
  = (ChatUI.State.setInputValue (fun _ => "And a fee?") Sample.judging, [])
  /\ ChatUI.handleRetry true
       (ChatUI.State.setInputValue (fun _ => "And a fee?") Sample.judging)
     = (ChatUI.State.setInputValue (fun _ => "And a fee?") Sample.judging, []).
Proof.
  destruct (proj1 (busy_blocks_send_and_retry (fun text => text) Sample.clock3 true
                     (ChatUI.State.setInputValue (fun _ => "And a fee?") Sample.judging))
              eq_refl)
    as (_ & _ & H1 & H2).
  split; assumption.
Defined.

(** ** [ChatUI]: the message a retry names *)

Section ChatUIRetryTarget.
Import ChatUI.

Lemma findLastUserMessageId_spec (n : nat) (prev : list MessageType.t)
    (lastUserMessage : string) :
  match findLastUserMessageId n prev lastUserMessage with
  | Some found =>
      exists k m,
        k < n /\ prev !! k = Some m
        /\ MessageType.role m = USER /\ MessageType.content m = lastUserMessage
        /\ MessageType.id m = found
        /\ (forall j m', k < j < n -> prev !! j = Some m' ->
              ~ (MessageType.role m' = USER /\ MessageType.content m' = lastUserMessage))
  | None =>
      forall j m', j < n -> prev !! j = Some m' ->
        ~ (MessageType.role m' = USER /\ MessageType.content m' = lastUserMessage)
  end.
Proof.
  induction n as [|n IH]; cbn [findLastUserMessageId]; [intros; lia|].
  destruct (prev !! n) as [m|] eqn:Hn.
  - destruct (bool_decide (MessageType.role m = USER)) eqn:Hr;
      [destruct (bool_decide (MessageType.content m = lastUserMessage)) eqn:Hc|]; cbn.
    + apply bool_decide_eq_true_1 in Hr, Hc.
      exists n, m. repeat split; try assumption; [lia|]. intros; lia.
    + apply bool_decide_eq_false_1 in Hc.
      destruct (findLastUserMessageId n prev lastUserMessage) as [found|].
      * destruct IH as (k & m0 & Hk & Hm0 & H1 & H2 & H3 & H4).
        exists k, m0. repeat split; try assumption; [lia|].
        intros j m' Hj Hm'. destruct (decide (j = n)) as [->|Hne].
        -- rewrite Hn in Hm'. injection Hm' as <-. tauto.
        -- apply (H4 j m'); [lia|exact Hm'].
      * intros j m' Hj Hm'. destruct (decide (j = n)) as [->|Hne].
        -- rewrite Hn in Hm'. injection Hm' as <-. tauto.
        -- apply (IH j m'); [lia|exact Hm'].
    + apply bool_decide_eq_false_1 in Hr.
      destruct (findLastUserMessageId n prev lastUserMessage) as [found|].
      * destruct IH as (k & m0 & Hk & Hm0 & H1 & H2 & H3 & H4).
        exists k, m0. repeat split; try assumption; [lia|].
        intros j m' Hj Hm'. destruct (decide (j = n)) as [->|Hne].
        -- rewrite Hn in Hm'. injection Hm' as <-. tauto.
        -- apply (H4 j m'); [lia|exact Hm'].
      * intros j m' Hj Hm'. destruct (decide (j = n)) as [->|Hne].
        -- rewrite Hn in Hm'. injection Hm' as <-. tauto.
        -- apply (IH j m'); [lia|exact Hm'].
  - destruct (findLastUserMessageId n prev lastUserMessage) as [found|].
    + destruct IH as (k & m0 & Hk & Hm0 & H1 & H2 & H3 & H4).
      exists k, m0. repeat split; try assumption; [lia|].
      intros j m' Hj Hm'. destruct (decide (j = n)) as [->|Hne]; [congruence|].
      apply (H4 j m'); [lia|exact Hm'].
    + intros j m' Hj Hm'. destruct (decide (j = n)) as [->|Hne]; [congruence|].
      apply (IH j m'); [lia|exact Hm'].
Qed.

(** X13. The loop of [handleRetry] over the whole history finds the id of
    the last message that is a user message with the content
    [lastUserMessage]: no later message is one; it finds nothing exactly when
    the history has no such message, an empty history included. *)
Theorem findLastUserMessageId_finds_last_match (prev : list MessageType.t)
    (lastUserMessage : string) :
  match findLastUserMessageId (length prev) prev lastUserMessage with
  | Some found =>
      exists k m,
        prev !! k = Some m
        /\ MessageType.role m = USER /\ MessageType.content m = lastUserMessage
        /\ MessageType.id m = found
        /\ (forall j m', k < j -> prev !! j = Some m' ->
              ~ (MessageType.role m' = USER /\ MessageType.content m' = lastUserMessage))
  | None =>
      Forall (fun m' => ~ (MessageType.role m' = USER
                           /\ MessageType.content m' = lastUserMessage)) prev
  end.
Proof.
  pose proof (findLastUserMessageId_spec (length prev) prev lastUserMessage) as H.
  destruct (findLastUserMessageId (length prev) prev lastUserMessage) as [found|].
  - destruct H as (k & m & Hk & Hm & H1 & H2 & H3 & H4).
    exists k, m. repeat split; try assumption.
    intros j m' Hj Hm'. apply (H4 j m'); [|exact Hm'].
    split; [exact Hj|]. eapply lookup_lt_Some. exact Hm'.
  - apply Forall_lookup. intros j m' Hm'. apply (H j m'); [|exact Hm'].
    eapply lookup_lt_Some. exact Hm'.
Qed.

Lemma last_userContents_position (l : list MessageType.t) (c : string) :
  last (userContents l) = Some c ->
  exists k m,
    l !! k = Some m /\ MessageType.role m = USER /\ MessageType.content m = c
    /\ (forall j m', k < j -> l !! j = Some m' -> MessageType.role m' <> USER).
Proof.
  induction l as [|x l IH] using rev_ind; [discriminate|].
  rewrite userContents_snoc.
  destruct (bool_decide (MessageType.role x = USER)) eqn:Hr.
  - apply bool_decide_eq_true_1 in Hr. rewrite last_snoc. intros [= <-].
    exists (length l), x. split; [apply list_lookup_middle; reflexivity|].
    repeat split; [exact Hr|].
    intros j m' Hj Hm'. apply lookup_lt_Some in Hm'.
    rewrite length_app in Hm'. cbn in Hm'. lia.
  - apply bool_decide_eq_false_1 in Hr. rewrite app_nil_r. intros Hlast.
    destruct (IH Hlast) as (k & m & Hk & H1 & H2 & H3).
    exists k, m. split; [rewrite lookup_app_l; [exact Hk|eapply lookup_lt_Some; exact Hk]|].
    repeat split; try assumption.
    intros j m' Hj Hm'. destruct (decide (j < length l)) as [Hlt|Hge].
    + rewrite lookup_app_l in Hm' by exact Hlt. exact (H3 j m' Hj Hm').
    + pose proof (lookup_lt_Some _ _ _ Hm') as Hb. rewrite length_app in Hb. cbn in Hb.
      assert (j = length l) as -> by lia.
      rewrite list_lookup_middle in Hm' by reflexivity. injection Hm' as <-. exact Hr.
Qed.

(** X14. In every state the component reaches from its first render, where
    the retry button is drawn, a retry names the last user message of the
    history: the [message] it sends is the content of that message, and its
    [message_id] is the id of that message when React has run the updater
    before the send and is absent otherwise; it is never the id of another
    message. *)
Theorem retry_names_last_user_message (trim : string -> string)
    (steps : list Step) (st : State.t) (effects : list Effect) (updaterRan : bool) :
  trim "" = "" ->
  run trim steps State.initial = Some (st, effects) ->
  retryButtonShown st = true ->
  exists k m data,
    State.messages st !! k = Some m
    /\ MessageType.role m = USER
    /\ (forall j m', k < j -> State.messages st !! j = Some m' ->
          MessageType.role m' <> USER)
    /\ snd (handleRetry updaterRan st) = [wsClient_send "user_message" data]
    /\ message data = MessageType.content m
    /\ message_id data = (if updaterRan then Some (MessageType.id m) else None).
Proof.
  intros Htrim Hrun Hshown.
  assert (Hinv : lastUserMessage_is_last st).
  { eapply (run_keeps_lastUserMessage_is_last trim Htrim); [|exact Hrun]. reflexivity. }
  unfold lastUserMessage_is_last in Hinv.
  assert (Hne : bool_decide (State.lastUserMessage st = "") = false).
  { unfold retryButtonShown in Hshown.
    destruct (bool_decide (State.lastUserMessage st = "")); [|reflexivity].
    rewrite andb_false_r in Hshown. discriminate. }
  rewrite Hne in Hinv.
  destruct (last_userContents_position _ _ Hinv) as (k & m & Hk & Hrole & Hcontent & Hafter).
  unfold handleRetry. rewrite handleRetry_guard, Hshown. cbv zeta. cbn [negb snd].
  destruct updaterRan.
  - pose proof (findLastUserMessageId_finds_last_match (State.messages st)
                  (State.lastUserMessage st)) as Hfind.
    destruct (findLastUserMessageId _ _ _) as [found|].
    + destruct Hfind as (k' & m0 & Hk' & Hr' & Hc' & Hid & Hlater).
      assert (k' = k) as ->.
      { destruct (Nat.lt_trichotomy k' k) as [Hlt | [Heq | Hgt]]; [|exact Heq|].
        - exfalso. apply (Hlater k m Hlt Hk). split; assumption.
        - exfalso. exact (Hafter k' m0 Hgt Hk' Hr'). }
      rewrite Hk in Hk'. injection Hk' as <-.
      exists k, m. eexists. repeat split; try eassumption; cbn; congruence.
    + exfalso. rewrite Forall_lookup in Hfind. apply (Hfind k m Hk). split; assumption.
  - exists k, m. eexists. repeat split; try eassumption; cbn; congruence.
Qed.

(** After a stop the updater has not run when the message is sent: the retry
    carries the content of the last user message and no [message_id]. *)
Lemma retry_names_last_user_message_witness :
  exists k m data,
    State.messages Sample.two_questions !! k = Some m
    /\ snd (handleRetry false (fst (handleStop Sample.two_questions)))
       = [wsClient_send "user_message" data]
    /\ message data = MessageType.content m
    /\ message_id data = None.
Proof.
  destruct (retry_names_last_user_message (fun text => text)
              [FromUser (TypeText "What is a permit?"); FromUser (PressSend Sample.clock1);
               FromUser PressStop;
               FromUser (TypeText "And a fee?"); FromUser (PressSend Sample.clock3);
               FromUser PressStop]
              (fst (handleStop Sample.two_questions))
              [wsClient_send "user_message"
                 (mkUserMessage "What is a permit?" None INPUT_CRITIQUE (Some "msg_1000")
                    None);
               wsClient_send "user_message"
                 (mkUserMessage "And a fee?" None INPUT_CRITIQUE (Some "msg_3000") None)]
              false eq_refl ltac:(vm_compute; reflexivity) eq_refl)
    as (k & m & data & H1 & _ & _ & H2 & H3 & H4).
  exists k, m, data. auto.
Defined.
End ChatUIRetryTarget.

(** ** [ChatUI]: the final lights, the messages sent *)

Section ChatUIFinalLights.
Import ChatUI.

(** X16. Once [judge_result] has arrived for an answer (the last message, an
    assistant message), the lights drawn under that answer are those of the
    final evaluation, one per criterion and in its order, whatever streaming
    evaluation the message carried before. *)
Theorem final_lights_after_judge_result (clock : Clock) (evaluation : JudgeEvaluation.t)
    (shown : option JudgeEvaluation.t) (st : State.t)
    (earlier : list MessageType.t) (answer : MessageType.t) :
  State.messages st = earlier ++ [answer] ->
  MessageType.role answer = ASSISTANT ->
  exists answer',
    State.messages (fst (onWebSocketEvent clock (JUDGE_RESULT evaluation) st))
    = earlier ++ [answer']
    /\ Message.renderTrafficLights answer' shown
       = (fun criterion =>
            (CriterionScore.name criterion,
             Message.getTrafficLightColor (CriterionScore.score criterion)))
           <$> JudgeEvaluation.criteria_scores evaluation.
Proof.
  intros Hm Hrole. rewrite onWebSocketEvent_judge_result, Hm, updateLastAssistant_snoc.
  rewrite bool_decide_eq_true_2 by exact Hrole.
  eexists. split; [reflexivity|].
  unfold Message.renderTrafficLights, Message.trafficLights. cbn. rewrite Hrole.
  reflexivity.
Qed.

Lemma final_lights_after_judge_result_witness :
  exists answer',
    State.messages (fst (onWebSocketEvent Sample.clock3 (JUDGE_RESULT Sample.verdict)
                           Sample.judging))
    = [Sample.question] ++ [answer']
    /\ Message.renderTrafficLights answer' None = [("bias", "🟢"); ("relevantie", "🟠")].
Proof.
  destruct (final_lights_after_judge_result Sample.clock3 Sample.verdict None
              Sample.judging [Sample.question] Sample.answer eq_refl eq_refl)
    as (answer' & H1 & H2).
  exists answer'. split; [exact H1|]. rewrite H2. reflexivity.
Defined.
End ChatUIFinalLights.

Section ChatUISent.
Import ChatUI.
Variable trim : string -> string.

Lemma newMessagesSent_onWebSocketEvent (clock : Clock) (event : WebSocketEvent)
    (st : State.t) :
  newMessagesSent (snd (onWebSocketEvent clock event st)) = [].
Proof.
  unfold onWebSocketEvent. change isStopped_of_mount with false.
  destruct event as [ | | chunk | response iteration conv | | criterion | evaluation
                    | | | error | criterion messageId ];
    try reflexivity.
  unfold handleEvent, handleChatbotResponse. cbv zeta. cbn [snd].
  destruct iteration as [n|]; [|reflexivity].
  destruct (bool_decide (n = 0)); reflexivity.
Qed.

Lemma userContents_onWebSocketEvent (clock : Clock) (event : WebSocketEvent)
    (st : State.t) :
  userContents (State.messages (fst (onWebSocketEvent clock event st)))
  = userContents (State.messages st).
Proof.
  pose proof (socket_events_keep_history clock event st) as H.
  destruct event as [ | | chunk | response iteration conv | | criterion | evaluation
                    | | | error | criterion messageId ];
    try (rewrite app_nil_r in H; apply userContents_of_core; exact H).
  set (newMessage := MessageType.mk (msg_id clock) ASSISTANT response (toISOString clock)
                       Metadata.empty).
  transitivity (userContents (State.messages st ++ [newMessage])).
  - apply userContents_of_core. rewrite H, fmap_app. reflexivity.
  - rewrite userContents_snoc. apply app_nil_r.
Qed.

Lemma step_records_new_messages (s : Step) (st : State.t) :
  userContents (State.messages (fst (step trim s st)))
  = userContents (State.messages st) ++ newMessagesSent (snd (step trim s st)).
Proof.
  destruct s as [action | clock event].
  - destruct action as [text | clock | | updaterRan]; cbn [step onUserAction].
    + cbn. rewrite app_nil_r. reflexivity.
    + unfold handleSend. destruct (_ || _).
      * cbn. rewrite app_nil_r. reflexivity.
      * cbv zeta. cbn -[userContents]. rewrite userContents_snoc. reflexivity.
    + cbn. rewrite app_nil_r. reflexivity.
    + unfold handleRetry. destruct (_ || _).
      * cbn. rewrite app_nil_r. reflexivity.
      * cbv zeta. cbn -[userContents]. rewrite app_nil_r.
        apply userContents_dropLastAssistant.
  - cbn [step]. rewrite newMessagesSent_onWebSocketEvent, app_nil_r.
    apply userContents_onWebSocketEvent.
Qed.

(** X17. Over any run of the component the user messages of the history are
    the messages sent as new user messages, in order: every press of send
    that passes its guard adds one user message and sends its content once;
    a retry, a stop and every event from the socket add none, remove none
    and change the content of none. *)
Theorem history_records_messages_sent (steps : list Step) :
  forall (st st' : State.t) (effects : list Effect),
    run trim steps st = Some (st', effects) ->
    userContents (State.messages st')
    = userContents (State.messages st) ++ newMessagesSent effects.
Proof.
  induction steps as [|s steps IH]; intros st st' effects Hrun.
  - injection Hrun as <- <-. cbn. rewrite app_nil_r. reflexivity.
  - cbn [run] in Hrun. destruct (step_allowed s st); [|discriminate].
    pose proof (step_records_new_messages s st) as Hstep.
    destruct (step trim s st) as [st1 effects1]. cbn [fst snd] in Hstep.
    destruct (run trim steps st1) as [[st2 effects2]|] eqn:E; [|discriminate].
    injection Hrun as <- <-.
    rewrite (IH _ _ _ E), Hstep. unfold newMessagesSent.
    rewrite omap_app, app_assoc. reflexivity.
Qed.
End ChatUISent.

Lemma history_records_messages_sent_witness :
  ChatUI.userContents (ChatUI.State.messages Sample.two_questions)
  = ChatUI.userContents (ChatUI.State.messages ChatUI.State.initial)
    ++ ["What is a permit?"; "And a fee?"].
Proof.
  apply (history_records_messages_sent (fun text => text)
           [ChatUI.FromUser (ChatUI.TypeText "What is a permit?");
            ChatUI.FromUser (ChatUI.PressSend Sample.clock1);
            ChatUI.FromUser ChatUI.PressStop;
            ChatUI.FromUser (ChatUI.TypeText "And a fee?");
            ChatUI.FromUser (ChatUI.PressSend Sample.clock3)]
           ChatUI.State.initial Sample.two_questions
           [ChatUI.wsClient_send "user_message"
              (ChatUI.mkUserMessage "What is a permit?" None INPUT_CRITIQUE
                 (Some "msg_1000") None);
            ChatUI.wsClient_send "user_message"
              (ChatUI.mkUserMessage "And a fee?" None INPUT_CRITIQUE
                 (Some "msg_3000") None)]).
  vm_compute. reflexivity.
Defined.
